(** * Housenumber sanitizer

    A shallow embedding of
    [src/nominatim_db/tokenizer/sanitizers/clean_housenumbers.py]
    and the properties of its address transform.

    Conventions of the embedding.

    - A Python [str] is a [string]; each [ascii] is one code point in the
      range U+0000..U+00FF (Latin-1), not a UTF-8 byte.  Characters beyond
      U+00FF are outside the model.
    - A Python [int] is a [Z] (unbounded).
    - A Python call that may raise is a value of [result]: [Ok v] for a
      normal return, [Raise e] for an exception that reaches the caller of
      the sanitizer.  The interpreter's limit on the number of digits that
      [int()] and [str()] convert is taken at its default of 4300 digits.
    - The object mutated by [__call__] is passed in and out explicitly. *)

From Stdlib Require Import ZArith QArith List Sorted Bool Ascii String Lia.
From Stdlib Require Import DecimalString DecimalZ DecimalFacts.
Import ListNotations.

Local Open Scope string_scope.
Local Open Scope Z_scope.
Local Open Scope list_scope.

(** ** The fragment of the Python runtime used by the sanitizer *)

Module Py.

Inductive exn : Type :=
| ValueError
| ZeroDivisionError
| OverflowError.

Inductive result (A : Type) : Type :=
| Ok (a : A)
| Raise (e : exn).

Arguments Ok {A} a.
Arguments Raise {A} e.

Definition bind {A B : Type} (m : result A) (k : A -> result B) : result B :=
  match m with
  | Ok a => k a
  | Raise e => Raise e
  end.

(** [\d] of the [re] module and [str.isdecimal], on U+0000..U+00FF: the
    ten characters '0'..'9' (general category Nd). *)
Definition is_decimal (c : ascii) : bool :=
  let n := nat_of_ascii c in
  (Nat.leb 48 n && Nat.leb n 57)%bool.

(** [str.isdigit] on one character of U+0000..U+00FF: the decimal
    characters and also SUPERSCRIPT TWO (U+00B2), SUPERSCRIPT THREE
    (U+00B3) and SUPERSCRIPT ONE (U+00B9), whose Numeric_Type is Digit. *)
Definition isdigit_char (c : ascii) : bool :=
  let n := nat_of_ascii c in
  (is_decimal c || Nat.eqb n 178 || Nat.eqb n 179 || Nat.eqb n 185)%bool.

Fixpoint forall_chars (p : ascii -> bool) (s : string) : bool :=
  match s with
  | EmptyString => true
  | String c s' => (p c && forall_chars p s')%bool
  end.

(** [s.isdigit()]: at least one character and all of them digits. *)
Definition isdigit (s : string) : bool :=
  match s with
  | EmptyString => false
  | _ => forall_chars isdigit_char s
  end.

(** The default of [sys.get_int_max_str_digits()]: [int] refuses a
    numeral of more digits and [str] an integer of more digits. *)
Definition max_str_digits : nat := 4300.

Definition str_limit : Z := 10 ^ Z.of_nat max_str_digits.

(** [int(s)] for a string without sign, white space or underscore (no
    other string reaches [int] in this module): the value of a non-empty
    sequence of at most [max_str_digits] decimal characters, leading
    zeros counted, and [ValueError] otherwise. *)
Definition int (s : string) : result Z :=
  match NilZero.uint_of_string s with
  | Some d =>
      if Nat.ltb max_str_digits (String.length s) then Raise ValueError
      else Ok (Z.of_uint d)
  | None => Raise ValueError
  end.

(** [str(n)] for an [int]: the decimal numeral, and [ValueError] when it
    would have more than [max_str_digits] digits, that is when
    [|n| >= 10 ^ max_str_digits]. *)
Definition str (n : Z) : result string :=
  if str_limit <=? Z.abs n then Raise ValueError
  else Ok (NilZero.string_of_int (Z.to_int n)).

(** A call on every element of a list in turn, up to the first
    exception: what consuming a generator expression does. *)
Fixpoint map_result {A B : Type} (f : A -> result B) (l : list A)
  : result (list B) :=
  match l with
  | [] => Ok []
  | x :: l' =>
      bind (f x) (fun y => bind (map_result f l') (fun ys => Ok (y :: ys)))
  end.

(** [s.split(sep)] for a separator of one character. *)
Fixpoint split (sep : ascii) (s : string) : list string :=
  match s with
  | EmptyString => [EmptyString]
  | String c s' =>
      if Ascii.eqb c sep then EmptyString :: split sep s'
      else match split sep s' with
           | p :: ps => String c p :: ps
           | [] => [String c EmptyString]
           end
  end.

(** True division [a / b] of two [int]s gives the correctly rounded
    binary64 quotient (round to nearest, ties to even) and raises
    [OverflowError] when that is not finite, which is when
    [|a / b| >= 2^1024 - 2^970].  The sanitizer only compares the
    quotient with the constant 10.  The float below 10 is [10 - 2^-49]
    and 10 has an even significand, so the rounded quotient is below 10
    exactly when the quotient itself is below [10 - 2^-50].
    [truediv_lt_10 a b] is [a / b < 10]. *)
Definition float_overflow : Z := 2 ^ 1024 - 2 ^ 970.

Definition truediv_lt_10 (a b : Z) : result bool :=
  if b =? 0 then Raise ZeroDivisionError
  else if float_overflow * Z.abs b <=? Z.abs a then Raise OverflowError
  else Ok (a * Z.sgn b * 2 ^ 50 <? (10 * 2 ^ 50 - 1) * Z.abs b).

(** [range(start, stop, step)], listed. *)
Definition range_length (start stop step : Z) : Z :=
  if 0 <? step then
    if start <? stop then (stop - start - 1) / step + 1 else 0
  else
    if stop <? start then (start - stop - 1) / (- step) + 1 else 0.

Definition range (start stop step : Z) : result (list Z) :=
  if step =? 0 then Raise ValueError
  else Ok (map (fun i => start + Z.of_nat i * step)
               (seq 0 (Z.to_nat (range_length start stop step)))).

End Py.

Import Py(result(..), exn(..)).

Notation "x <- m ;; k" := (Py.bind m (fun x => k))
  (at level 61, m at next level, right associativity).
Notation "' pat <- m ;; k" :=
  (Py.bind m (fun x => match x with pat => k end))
  (at level 61, pat pattern, m at next level, right associativity).

(** ** Address items and records *)

(** Modelled from the spec: the item type [PlaceName] (module
    [data.place_name]) is not part of the sources at hand.  An item has a
    kind, a value (attribute [name]) and further attributes which the
    sanitizer never inspects; [clone] copies an item, replacing the kind
    and the value where an override is given and keeping everything else. *)
Record PlaceName : Type := mkPlaceName {
  name : string;
  kind : string;
  attrs : list (string * string)
}.

Definition clone (self : PlaceName) (new_name new_kind : option string)
  : PlaceName :=
  {| name := match new_name with Some n => n | None => name self end;
     kind := match new_kind with Some k => k | None => kind self end;
     attrs := attrs self |}.

(** Modelled from the spec: the record type [ProcessInfo] (module
    [sanitizers.base]) is not part of the sources at hand.  The sanitizer
    uses its two item sequences [address] and [names]. *)
Record ProcessInfo : Type := mkProcessInfo {
  address : list PlaceName;
  names : list PlaceName
}.

(** ** The sanitizer *)

(** [RANGE_REGEX.fullmatch(s)] for [RANGE_REGEX = re.compile(r'\d+-\d+')]:
    a greedy run of decimal characters, a hyphen, a second run, end of
    string.  No decimal character is a hyphen, so the greedy reading is the
    only one. *)
Fixpoint skip_decimals (s : string) : string :=
  match s with
  | String c s' => if Py.is_decimal c then skip_decimals s' else s
  | EmptyString => EmptyString
  end.

Definition starts_with_decimal (s : string) : bool :=
  match s with
  | String c _ => Py.is_decimal c
  | EmptyString => false
  end.

Definition RANGE_REGEX_fullmatch (s : string) : bool :=
  starts_with_decimal s &&
  match skip_decimals s with
  | String "-" r =>
      starts_with_decimal r &&
      match skip_decimals r with EmptyString => true | _ => false end
  | _ => false
  end.

(** The interpolation type held by the local variable [itype]
    ([Union[int, str, None]]; [None] is [option]'s [None]). *)
Inductive itype_t : Type :=
| IInt (n : Z)
| IStr (s : string).

(** The fields bound by [_HousenumberSanitizer.__init__].  The filters and
    the compiled delimiter expression come from [SanitizerConfig], which
    is not part of the sources at hand; they are taken as they are used:
    two predicates on strings and the [split] method of the delimiter
    expression. *)
Record HousenumberSanitizer : Type := mkSanitizer {
  filter_kind : string -> bool;
  split_regexp_split : string -> list string;
  filter_name : string -> bool;
  expand_interpolations : bool
}.

Definition nonempty (s : string) : bool :=
  match s with EmptyString => false | _ => true end.

Definition _regularize (hnr : string) : list string := [hnr].

Definition sanitize (self : HousenumberSanitizer) (value : string)
  : list string :=
  flat_map _regularize (filter nonempty (split_regexp_split self value)).

(** [first, last = (int(i) for i in hnr.split('-'))]: the two conversions,
    and [ValueError] when the unpacking does not find exactly two values. *)
Definition parse_endpoints (hnr : string) : result (Z * Z) :=
  match Py.split "-" hnr with
  | [a; b] => first <- Py.int a ;; last <- Py.int b ;; Ok (first, last)
  | _ => Raise ValueError
  end.

Definition step_of (itype : itype_t) : Z :=
  match itype with
  | IInt n => n
  | IStr _ => 2
  end.

Definition adjust_first (itype : itype_t) (first : Z) : Z :=
  match itype with
  | IInt _ => first
  | IStr s =>
      if ((s =? "even")%string && (first mod 2 =? 1))
         || ((s =? "odd")%string && (first mod 2 =? 0))
      then first + 1 else first
  end.

Definition _expand_range (itype : itype_t) (hnr : string) : result (list Z) :=
  '(first, last) <- parse_endpoints hnr ;;
  let step := step_of itype in
  let first := adjust_first itype first in
  small <- Py.truediv_lt_10 (last + 1 - first) step ;;
  if small then Py.range first (last + 1) step else Ok [].

(** [next((i.name for i in obj.address if i.kind == 'interpolation'), None)] *)
Definition first_interpolation (addr : list PlaceName) : option string :=
  option_map name (find (fun i => (kind i =? "interpolation")%string) addr).

(** Lines 57 to 63: the interpolation type read from the token. *)
Definition resolve_itype (t : string) : result (option itype_t) :=
  if (t =? "all")%string then Ok (Some (IInt 1))
  else if (Nat.eqb (String.length t) 1 && Py.isdigit t)%bool then
    n <- Py.int t ;; Ok (Some (IInt n))
  else if negb ((t =? "odd")%string || (t =? "even")%string) then Ok None
  else Ok (Some (IStr t)).

Definition discover_itype (self : HousenumberSanitizer)
  (addr : list PlaceName) : result (option itype_t) :=
  if expand_interpolations self then
    match first_interpolation addr with
    | Some t => resolve_itype t
    | None => Ok None
    end
  else Ok None.

(** The state of the loop of [__call__]: [new_address] and [obj.names]. *)
Definition loop_state : Type := (list PlaceName * list PlaceName)%type.

Definition housenumber_of (item : PlaceName) (n : string) : PlaceName :=
  clone item (Some n) (Some "housenumber").

(** Lines 75 to 79. *)
Definition name_or_split (self : HousenumberSanitizer) (item : PlaceName)
  (st : loop_state) : loop_state :=
  let '(new_address, obj_names) := st in
  if filter_name self (name item) then
    (new_address, obj_names ++ [clone item None (Some "housenumber")])
  else
    (new_address ++ map (housenumber_of item) (sanitize self (name item)),
     obj_names).

(** One iteration of the loop, lines 67 to 82. *)
Definition loop_body (self : HousenumberSanitizer) (itype : option itype_t)
  (item : PlaceName) (st : loop_state) : result loop_state :=
  if filter_kind self (kind item) then
    match itype with
    | Some it =>
        if RANGE_REGEX_fullmatch (name item) then
          hnrs <- _expand_range it (name item) ;;
          match hnrs with
          | _ :: _ =>
              values <- Py.map_result Py.str hnrs ;;
              Ok (fst st ++ map (housenumber_of item) values, snd st)
          | [] => Ok (name_or_split self item st)
          end
        else Ok (name_or_split self item st)
    | None => Ok (name_or_split self item st)
    end
  else if negb (kind item =? "interpolation")%string then
    Ok (fst st ++ [item], snd st)
  else Ok st.

Fixpoint loop (self : HousenumberSanitizer) (itype : option itype_t)
  (items : list PlaceName) (st : loop_state) : result loop_state :=
  match items with
  | [] => Ok st
  | item :: rest =>
      st' <- loop_body self itype item st ;; loop self itype rest st'
  end.

(** [_HousenumberSanitizer.__call__].  The result is the record as the
    call leaves it; an exception is reported without the record. *)
Definition __call__ (self : HousenumberSanitizer) (obj : ProcessInfo)
  : result ProcessInfo :=
  match address obj with
  | [] => Ok obj
  | _ :: _ =>
      itype <- discover_itype self (address obj) ;;
      st <- loop self itype (address obj) ([], names obj) ;;
      Ok {| address := fst st; names := snd st |}
  end.

(** *** The default configuration *)

(** Modelled from the spec: [SanitizerConfig.get_filter] and
    [get_delimiter] are not part of the sources at hand.  A filter built
    from a list of patterns without meta-characters matches the listed
    strings; the filter of an absent option with default [FAIL_ALL]
    matches nothing; the delimiter expression cuts a value at every
    delimiter character (default: comma and semicolon). *)
Definition literal_filter (patterns : list string) (s : string) : bool :=
  existsb (String.eqb s) patterns.

Definition fail_all (s : string) : bool := false.

Fixpoint split_on (delimiters : list ascii) (s : string) : list string :=
  match s with
  | EmptyString => [EmptyString]
  | String c s' =>
      if existsb (Ascii.eqb c) delimiters then EmptyString :: split_on delimiters s'
      else match split_on delimiters s' with
           | p :: ps => String c p :: ps
           | [] => [String c EmptyString]
           end
  end.

Definition default_delimiters : list ascii := [","%char; ";"%char].

Definition default_sanitizer : HousenumberSanitizer :=
  {| filter_kind := literal_filter ["housenumber"];
     split_regexp_split := split_on default_delimiters;
     filter_name := fail_all;
     expand_interpolations := true |}.

Definition item (k v : string) : PlaceName :=
  {| name := v; kind := k; attrs := [] |}.

Definition record (addr : list PlaceName) : ProcessInfo :=
  {| address := addr; names := [] |}.

(** ** Properties stated by the specification

    Definitions that follow the wording of the specification, to be
    compared with the code above. *)

(** "[count = (last + 1 - first) / step] (real-valued division)". *)
Definition count (first last step : Z) : Q :=
  (inject_Z (last + 1 - first) / inject_Z step)%Q.

(** "the ascending integers first, first+step, first+2*step, ... not
    exceeding last": [l] lists exactly these, in ascending order. *)
Definition ascending_run (first last step : Z) (l : list Z) : Prop :=
  Sorted.StronglySorted Z.lt l /\
  forall x, In x l <-> exists k, 0 <= k /\ x = first + k * step /\ x <= last.

(** "the canonical decimal representation": decimal characters only, at
    least one, and no leading zero except for the numeral of zero itself. *)
Definition canonical_decimal (s : string) : Prop :=
  Py.forall_chars Py.is_decimal s = true /\
  s <> "" /\
  (forall r, s = String "0" r -> r = "").

(** The true division of line 110 returns a float (neither
    [ZeroDivisionError] nor [OverflowError]). *)
Definition quotient_finite (a b : Z) : Prop :=
  b <> 0 /\ Z.abs a < Py.float_overflow * Z.abs b.

(** The housenumber candidate [item] is not expanded as a range: no
    expansion is attempted for it, or the attempt returns no number. *)
Definition not_expanded (itype : option itype_t) (item : PlaceName) : Prop :=
  match itype with
  | None => True
  | Some it =>
      RANGE_REGEX_fullmatch (name item) = false \/
      _expand_range it (name item) = Ok []
  end.

(** An item that the loop passes through: its kind is neither a
    housenumber kind nor 'interpolation'. *)
Definition passes_through (self : HousenumberSanitizer) (item : PlaceName)
  : bool :=
  negb (filter_kind self (kind item)) &&
  negb (kind item =? "interpolation")%string.

(** A record that is already regular: no item of kind 'interpolation',
    and every housenumber candidate has a value that is no range, is not
    turned into a name and is a single token of the splitter. *)
Definition regular_item (self : HousenumberSanitizer) (item : PlaceName)
  : Prop :=
  kind item <> "interpolation" /\
  (filter_kind self (kind item) = true ->
   RANGE_REGEX_fullmatch (name item) = false /\
   filter_name self (name item) = false /\
   sanitize self (name item) = [name item]).

Definition regular (self : HousenumberSanitizer) (obj : ProcessInfo) : Prop :=
  Forall (regular_item self) (address obj).

(** ** Notions derived from the loop *)

(** What one iteration of the loop adds for [item]: the items appended
    to [new_address] and the items appended to [obj.names]. *)
Definition emitted (self : HousenumberSanitizer) (itype : option itype_t)
  (item : PlaceName) : list PlaceName :=
  match loop_body self itype item ([], []) with
  | Ok st => fst st
  | Raise _ => []
  end.

Definition named (self : HousenumberSanitizer) (itype : option itype_t)
  (item : PlaceName) : list PlaceName :=
  match loop_body self itype item ([], []) with
  | Ok st => snd st
  | Raise _ => []
  end.

(** The item that a regular record holds after the transform. *)
Definition as_housenumber (self : HousenumberSanitizer) (item : PlaceName)
  : PlaceName :=
  if filter_kind self (kind item) then housenumber_of item (name item)
  else item.

(** A string of [n] zeros, for long numerals. *)
Fixpoint zeros (n : nat) : string :=
  match n with
  | O => EmptyString
  | S n' => String "0" (zeros n')
  end.

(** ** Concrete configurations and records *)

(** A configuration whose [filter-kind] lists 'interpolation' next to
    'housenumber'. *)
Definition interpolation_sanitizer : HousenumberSanitizer :=
  {| filter_kind := literal_filter ["housenumber"; "interpolation"];
     split_regexp_split := split_on default_delimiters;
     filter_name := fail_all;
     expand_interpolations := true |}.

(** A configuration whose [convert-to-name] is the pattern 'private'. *)
Definition private_sanitizer : HousenumberSanitizer :=
  {| filter_kind := literal_filter ["housenumber"];
     split_regexp_split := split_on default_delimiters;
     filter_name := literal_filter ["private"];
     expand_interpolations := true |}.

(** The character SUPERSCRIPT TWO (U+00B2) as a string. *)
Definition superscript_two : string := String "178" "".

(** The range from 10^309 down to 0. *)
Definition huge_descending : string :=
  (String "1" (zeros 309) ++ "-0")%string.

(** ** Notions for the error behaviour *)

(** An item for which line 69 calls [_expand_range] once an interpolation
    type is set: a housenumber candidate whose value matches
    [RANGE_REGEX]. *)
Definition range_candidate (self : HousenumberSanitizer) (i : PlaceName)
  : bool :=
  filter_kind self (kind i) && RANGE_REGEX_fullmatch (name i).

(** The interpolation types that lines 57 to 63 can leave in [itype]. *)
Definition resolved (it : itype_t) : Prop :=
  (exists n, it = IInt n /\ 0 <= n <= 9) \/ it = IStr "odd" \/ it = IStr "even".

(** A token on which line 61 raises: one character that [isdigit] accepts
    and [int] rejects. *)
Definition superscript_token (t : string) : Prop :=
  exists c, t = String c "" /\
            Py.isdigit_char c = true /\ Py.is_decimal c = false.

(** The longest value, in characters, for which the true division of
    line 110 cannot overflow. *)
Definition safe_length : nat := 308.

(** A value one of whose endpoints has more digits than [int] converts. *)
Definition long_endpoint (s : string) : bool :=
  existsb (fun part => Nat.ltb Py.max_str_digits (String.length part))
          (Py.split "-" s).

(** A token that is not '0' and, when it is a single character, is a
    character of the ASCII range. *)
Definition safe_token (t : string) : Prop :=
  t <> "0" /\ forall c, t = String c "" -> (nat_of_ascii c < 128)%nat.

(** A close pair of endpoints of 4301 digits each. *)
Definition long_range : string :=
  (String "1" (zeros 4300) ++ "-" ++ String "1" (zeros 4299) ++ "2")%string.

(** ** Facts about the runtime fragment *)

Section RuntimeFacts.

Lemma decimal_not_hyphen (c : ascii) :
  Py.is_decimal c = true -> Ascii.eqb c "-" = false.
Proof.
  destruct c as [[] [] [] [] [] [] [] []]; cbv; intros H;
    solve [reflexivity | discriminate H].
Qed.

Lemma uint_of_char_decimal (c : ascii) (d : Decimal.uint) :
  Py.is_decimal c = true -> exists d', uint_of_char c (Some d) = Some d'.
Proof.
  destruct c as [[] [] [] [] [] [] [] []]; cbv; intros H;
    solve [discriminate H | eexists; reflexivity].
Qed.

Lemma uint_of_string_decimal (s : string) :
  Py.forall_chars Py.is_decimal s = true ->
  exists d, NilEmpty.uint_of_string s = Some d.
Proof.
  induction s as [|c s IH]; simpl; intros H.
  - now exists Decimal.Nil.
  - apply andb_true_iff in H as [Hc Hs].
    destruct (IH Hs) as [d ->].
    now apply uint_of_char_decimal.
Qed.

Lemma of_uint_nonneg (d : Decimal.uint) : 0 <= Z.of_uint d.
Proof. unfold Z.of_uint. apply N2Z.is_nonneg. Qed.

(** [int] succeeds on every non-empty string of at most [max_str_digits]
    decimal characters and raises on every longer string. *)
Lemma int_decimal (s : string) :
  Py.forall_chars Py.is_decimal s = true -> s <> "" ->
  (String.length s <= Py.max_str_digits)%nat ->
  exists n, Py.int s = Ok n /\ 0 <= n.
Proof.
  intros Hs Hne Hlen. unfold Py.int.
  destruct (uint_of_string_decimal s Hs) as [d Hd].
  destruct s as [|c s]; [congruence|].
  cbn [NilZero.uint_of_string]. rewrite Hd.
  destruct (Nat.ltb_spec Py.max_str_digits (String.length (String c s)));
    [lia|].
  eexists; split; [reflexivity | apply of_uint_nonneg].
Qed.

Lemma int_too_long (s : string) :
  (Py.max_str_digits < String.length s)%nat -> Py.int s = Raise ValueError.
Proof.
  intros Hlen. unfold Py.int.
  destruct (NilZero.uint_of_string s); [|reflexivity].
  destruct (Nat.ltb_spec Py.max_str_digits (String.length s)); [reflexivity|lia].
Qed.

Lemma int_ok (s : string) (n : Z) :
  Py.int s = Ok n ->
  (String.length s <= Py.max_str_digits)%nat /\
  exists d, NilZero.uint_of_string s = Some d /\ n = Z.of_uint d.
Proof.
  unfold Py.int. destruct (NilZero.uint_of_string s) as [d|]; [|discriminate].
  destruct (Nat.ltb_spec Py.max_str_digits (String.length s)); [discriminate|].
  intros [= <-]. split; [lia | eauto].
Qed.

Lemma int_raise (s : string) (e : exn) : Py.int s = Raise e -> e = ValueError.
Proof.
  unfold Py.int. destruct (NilZero.uint_of_string s); [|now intros [= <-]].
  destruct (Nat.ltb _ _); [now intros [= <-] | discriminate].
Qed.

Lemma split_nonnil (sep : ascii) (s : string) : Py.split sep s <> [].
Proof.
  destruct s as [|c s]; cbn; [discriminate|].
  destruct (Ascii.eqb c sep); [discriminate|].
  destruct (Py.split sep s); discriminate.
Qed.

Lemma split_no_sep (sep : ascii) (s : string) :
  Py.forall_chars (fun c => negb (Ascii.eqb c sep)) s = true ->
  Py.split sep s = [s].
Proof.
  induction s as [|c s IH]; cbn; intros H; [reflexivity|].
  apply andb_true_iff in H as [Hc Hs].
  apply negb_true_iff in Hc. rewrite Hc, (IH Hs). reflexivity.
Qed.

Lemma split_at_sep (sep : ascii) (a b : string) :
  Py.forall_chars (fun c => negb (Ascii.eqb c sep)) a = true ->
  Py.split sep (a ++ String sep b)%string = a :: Py.split sep b.
Proof.
  induction a as [|c a IH]; cbn; intros H.
  - now rewrite Ascii.eqb_refl.
  - apply andb_true_iff in H as [Hc Ha].
    apply negb_true_iff in Hc. rewrite Hc, (IH Ha). reflexivity.
Qed.

Lemma forall_chars_impl (p q : ascii -> bool) (s : string) :
  (forall c, p c = true -> q c = true) ->
  Py.forall_chars p s = true -> Py.forall_chars q s = true.
Proof.
  intros Hpq. induction s as [|c s IH]; cbn; [easy|].
  intros H. apply andb_true_iff in H as [Hc Hs].
  now rewrite (Hpq c Hc), (IH Hs).
Qed.

Lemma decimals_no_hyphen (s : string) :
  Py.forall_chars Py.is_decimal s = true ->
  Py.forall_chars (fun c => negb (Ascii.eqb c "-")) s = true.
Proof.
  apply forall_chars_impl. intros c Hc.
  now rewrite (decimal_not_hyphen c Hc).
Qed.

(** The run of decimal characters that [skip_decimals] steps over. *)
Lemma skip_decimals_prefix (s : string) :
  exists a, s = (a ++ skip_decimals s)%string /\
            Py.forall_chars Py.is_decimal a = true.
Proof.
  induction s as [|c s [a [Ha Hd]]]; cbn.
  - now exists "".
  - destruct (Py.is_decimal c) eqn:Hc.
    + exists (String c a). cbn. rewrite Hc, Hd. split; [now f_equal | easy].
    + now exists "".
Qed.

Lemma skip_decimals_all (s : string) :
  Py.forall_chars Py.is_decimal s = true -> skip_decimals s = "".
Proof.
  induction s as [|c s IH]; cbn; [easy|].
  intros H. apply andb_true_iff in H as [Hc Hs]. now rewrite Hc, IH.
Qed.

Lemma skip_decimals_app (a : string) (c : ascii) (r : string) :
  Py.forall_chars Py.is_decimal a = true -> Py.is_decimal c = false ->
  skip_decimals (a ++ String c r) = String c r.
Proof.
  induction a as [|x a IH]; cbn; intros Ha Hc.
  - now rewrite Hc.
  - apply andb_true_iff in Ha as [Hx Ha]. now rewrite Hx, IH.
Qed.

Lemma append_empty_r (s : string) : (s ++ "")%string = s.
Proof. induction s as [|c s IH]; cbn; [easy | now rewrite IH]. Qed.

(** What [RANGE_REGEX] matches in full: two non-empty runs of decimal
    characters with one hyphen between them. *)
Lemma RANGE_REGEX_fullmatch_iff (s : string) :
  RANGE_REGEX_fullmatch s = true <->
  exists a b, s = (a ++ String "-" b)%string /\
    Py.forall_chars Py.is_decimal a = true /\ a <> "" /\
    Py.forall_chars Py.is_decimal b = true /\ b <> "".
Proof.
  unfold RANGE_REGEX_fullmatch. split.
  - intros H. apply andb_true_iff in H as [Hs H].
    destruct (skip_decimals_prefix s) as [a [Ea Ha]].
    destruct (skip_decimals s) as [|c r] eqn:Er; [discriminate|].
    destruct (Ascii.eqb_spec c "-") as [->|Hc].
    2:{ destruct c as [[] [] [] [] [] [] [] []]; try discriminate H.
        now contradiction Hc. }
    apply andb_true_iff in H as [Hr H].
    destruct (skip_decimals_prefix r) as [b [Eb Hb]].
    destruct (skip_decimals r); [|discriminate].
    rewrite append_empty_r in Eb. subst b.
    exists a, r. repeat split; trivial.
    + intros ->. cbn in Ea. subst s. discriminate Hs.
    + intros ->. discriminate Hr.
  - intros (a & b & -> & Ha & Hna & Hb & Hnb).
    rewrite skip_decimals_app by (trivial; reflexivity).
    rewrite (skip_decimals_all b Hb).
    destruct a as [|x a]; [congruence|]. destruct b as [|y b]; [congruence|].
    cbn in Ha, Hb |- *.
    apply andb_true_iff in Ha as [-> _]. apply andb_true_iff in Hb as [-> _].
    reflexivity.
Qed.

Lemma length_append (a b : string) :
  String.length (a ++ b) = (String.length a + String.length b)%nat.
Proof. induction a as [|c a IH]; cbn; [reflexivity | now rewrite IH]. Qed.

(** After a full match of [RANGE_REGEX] the value splits into its two
    endpoints, and line 100 is the conversion of the two. *)
Lemma parse_endpoints_parts (s : string) :
  RANGE_REGEX_fullmatch s = true ->
  exists a b,
    s = (a ++ String "-" b)%string /\
    Py.forall_chars Py.is_decimal a = true /\ a <> "" /\
    Py.forall_chars Py.is_decimal b = true /\ b <> "" /\
    Py.split "-" s = [a; b] /\
    parse_endpoints s
    = (first <- Py.int a ;; last <- Py.int b ;; Ok (first, last)).
Proof.
  intros H. apply RANGE_REGEX_fullmatch_iff in H
    as (a & b & -> & Ha & Hna & Hb & Hnb).
  exists a, b.
  assert (Es : Py.split "-" (a ++ String "-" b) = [a; b]).
  { rewrite split_at_sep by now apply decimals_no_hyphen.
    now rewrite split_no_sep by now apply decimals_no_hyphen. }
  repeat split; trivial. unfold parse_endpoints. now rewrite Es.
Qed.

Lemma long_endpoint_parts (s a b : string) :
  Py.split "-" s = [a; b] ->
  long_endpoint s
  = (Nat.ltb Py.max_str_digits (String.length a)
     || Nat.ltb Py.max_str_digits (String.length b)).
Proof.
  intros Es. unfold long_endpoint. rewrite Es. cbn [existsb].
  now rewrite orb_false_r.
Qed.

(** After a full match of [RANGE_REGEX] both endpoints parse, unless one
    of them is too long for [int]. *)
Lemma parse_endpoints_fullmatch (s : string) :
  RANGE_REGEX_fullmatch s = true ->
  long_endpoint s = false ->
  exists first last,
    parse_endpoints s = Ok (first, last) /\ 0 <= first /\ 0 <= last.
Proof.
  intros H Hlong.
  destruct (parse_endpoints_parts s H)
    as (a & b & _ & Ha & Hna & Hb & Hnb & Es & Ep).
  rewrite (long_endpoint_parts s a b Es) in Hlong.
  apply orb_false_iff in Hlong as [La Lb].
  apply Nat.ltb_ge in La, Lb.
  destruct (int_decimal a Ha Hna La) as [first [Ef Hf]].
  destruct (int_decimal b Hb Hnb Lb) as [last [El Hl]].
  exists first, last. rewrite Ep, Ef, El. cbn. auto.
Qed.

Lemma parse_endpoints_long (s : string) :
  RANGE_REGEX_fullmatch s = true ->
  long_endpoint s = true ->
  parse_endpoints s = Raise ValueError.
Proof.
  intros H Hlong.
  destruct (parse_endpoints_parts s H)
    as (a & b & _ & Ha & Hna & Hb & Hnb & Es & Ep).
  rewrite (long_endpoint_parts s a b Es) in Hlong. rewrite Ep.
  destruct (Nat.ltb_spec Py.max_str_digits (String.length a)) as [La|La].
  - now rewrite (int_too_long a La).
  - cbn [orb] in Hlong. apply Nat.ltb_lt in Hlong.
    destruct (int_decimal a Ha Hna La) as [first [-> _]]. cbn.
    now rewrite (int_too_long b Hlong).
Qed.

Lemma parse_endpoints_raise (s : string) (e : exn) :
  RANGE_REGEX_fullmatch s = true ->
  parse_endpoints s = Raise e -> e = ValueError /\ long_endpoint s = true.
Proof.
  intros H Hr. destruct (long_endpoint s) eqn:Hl.
  - rewrite (parse_endpoints_long s H Hl) in Hr. now injection Hr as <-.
  - destruct (parse_endpoints_fullmatch s H Hl) as (f & l & Hp & _).
    congruence.
Qed.

Lemma short_not_long_endpoint (s : string) :
  RANGE_REGEX_fullmatch s = true ->
  (String.length s <= Py.max_str_digits)%nat -> long_endpoint s = false.
Proof.
  intros H Hlen.
  destruct (parse_endpoints_parts s H) as (a & b & -> & _ & _ & _ & _ & Es & _).
  rewrite (long_endpoint_parts _ a b Es).
  rewrite length_append in Hlen. cbn [String.length] in Hlen.
  apply orb_false_iff. split; apply Nat.ltb_ge; lia.
Qed.

End RuntimeFacts.

Section RangeFacts.

Variables (start step : Z).
Hypothesis step_pos : 0 < step.

Let nth_value (i : nat) : Z := start + Z.of_nat i * step.

Lemma affine_sorted (s n : nat) :
  StronglySorted Z.lt (map nth_value (seq s n)).
Proof.
  revert s. induction n as [|n IH]; intros s; cbn; constructor.
  - apply IH.
  - apply Forall_forall. intros x Hx.
    apply in_map_iff in Hx as (i & <- & Hi). apply in_seq in Hi.
    unfold nth_value. nia.
Qed.

Lemma range_length_spec (last : Z) (i : nat) :
  (i < Z.to_nat (Py.range_length start (last + 1) step))%nat <->
  nth_value i <= last.
Proof.
  unfold Py.range_length, nth_value.
  destruct (Z.ltb_spec 0 step) as [_|]; [|lia].
  destruct (Z.ltb_spec start (last + 1)) as [Hle|Hgt].
  - replace (last + 1 - start - 1) with (last - start) by lia.
    pose proof (Z.div_mod (last - start) step ltac:(lia)) as Hdm.
    pose proof (Z.mod_pos_bound (last - start) step step_pos) as Hm.
    assert (Hq : 0 <= (last - start) / step) by (apply Z.div_pos; lia).
    split; intros Hi; [|apply Nat2Z.inj_lt; rewrite Z2Nat.id by lia]; nia.
  - cbn. split; [lia | nia].
Qed.

(** [range(start, last + 1, step)] lists the ascending run from [start]
    to [last], and it is empty exactly when [last < start]. *)
Lemma range_ascending (last : Z) :
  exists l, Py.range start (last + 1) step = Ok l /\
            ascending_run start last step l /\
            (l = [] <-> last < start).
Proof.
  unfold Py.range. destruct (Z.eqb_spec step 0) as [|_]; [lia|].
  eexists; split; [reflexivity|]. fold nth_value. split; [split|].
  - apply affine_sorted.
  - intros x. rewrite in_map_iff. split.
    + intros (i & <- & Hi). apply in_seq in Hi. exists (Z.of_nat i).
      split; [lia|]. split; [reflexivity|].
      apply range_length_spec. lia.
    + intros (k & Hk & -> & Hle). exists (Z.to_nat k).
      unfold nth_value. rewrite Z2Nat.id by lia. split; [reflexivity|].
      apply in_seq. split; [lia|]. cbn.
      apply range_length_spec. unfold nth_value. now rewrite Z2Nat.id by lia.
  - pose proof (range_length_spec last 0) as H0. unfold nth_value in H0.
    cbn in H0. rewrite Z.add_0_r in H0.
    destruct (Z.to_nat (Py.range_length start (last + 1) step)) eqn:E; cbn.
    + split; [intros _|reflexivity]. destruct (Z.le_gt_cases start last) as [Hc|]; [|lia].
      apply H0 in Hc. lia.
    + split; [discriminate|]. intros Hlt. assert (start <= last) by (apply H0; lia). lia.
Qed.

End RangeFacts.

Section DivisionFacts.

Variables (a b : Z).
Hypothesis b_pos : 0 < b.

(** The comparison of the model against the real-valued quotient. *)
Lemma count_lt_iff (first last : Z) :
  (count first last b < 10)%Q <-> last + 1 - first < 10 * b.
Proof.
  unfold count. set (n := last + 1 - first).
  assert (Hb : (inject_Z 0 < inject_Z b)%Q) by (rewrite <- Zlt_Qlt; exact b_pos).
  split; intros H.
  - destruct (Z.lt_ge_cases n (10 * b)) as [|Hge]; [assumption|].
    exfalso. apply (Qlt_not_le _ _ H).
    apply Qle_shift_div_l; [exact Hb|].
    change 10%Q with (inject_Z 10). rewrite <- inject_Z_mult, <- Zle_Qle. lia.
  - apply Qlt_shift_div_r; [exact Hb|].
    change 10%Q with (inject_Z 10). rewrite <- inject_Z_mult, <- Zlt_Qlt. lia.
Qed.

Lemma rounded_lt_10 :
  a * Z.sgn b * 2 ^ 50 < (10 * 2 ^ 50 - 1) * Z.abs b -> a < 10 * b.
Proof.
  rewrite (Z.sgn_pos b b_pos), (Z.abs_eq b) by lia.
  assert (0 < 2 ^ 50) by (apply Z.pow_pos_nonneg; lia). nia.
Qed.

(** For a divisor below 2^50 no quotient below 10 rounds up to 10. *)
Lemma exact_lt_10 :
  b < 2 ^ 50 ->
  a < 10 * b -> a * Z.sgn b * 2 ^ 50 < (10 * 2 ^ 50 - 1) * Z.abs b.
Proof.
  intros Hb Ha. rewrite (Z.sgn_pos b b_pos), (Z.abs_eq b) by lia.
  set (P := 2 ^ 50) in *. nia.
Qed.

Lemma truediv_lt_10_finite :
  b < 2 ^ 50 ->
  quotient_finite a b -> Py.truediv_lt_10 a b = Ok (a <? 10 * b).
Proof.
  intros Hb [_ Hfin]. unfold Py.truediv_lt_10.
  destruct (Z.eqb_spec b 0); [lia|].
  destruct (Z.leb_spec (Py.float_overflow * Z.abs b) (Z.abs a)); [lia|].
  f_equal. destruct (Z.ltb_spec a (10 * b)) as [Ha|Ha].
  - apply Z.ltb_lt. now apply exact_lt_10.
  - apply Z.ltb_ge. destruct (Z.le_gt_cases ((10 * 2 ^ 50 - 1) * Z.abs b)
                                (a * Z.sgn b * 2 ^ 50)) as [|Hlt]; [assumption|].
    apply rounded_lt_10 in Hlt. lia.
Qed.

Lemma truediv_lt_10_true :
  Py.truediv_lt_10 a b = Ok true -> a < 10 * b.
Proof.
  unfold Py.truediv_lt_10. destruct (b =? 0); [discriminate|].
  destruct (_ <=? _); [discriminate|].
  intros [= H]. apply Z.ltb_lt in H. now apply rounded_lt_10.
Qed.

End DivisionFacts.

Section NumeralBounds.

Lemma of_uint_acc_bound (d : Decimal.uint) (acc : positive) :
  Z.pos acc * 10 ^ Z.of_nat (Decimal.nb_digits d)
  <= Z.pos (Pos.of_uint_acc d acc)
  < (Z.pos acc + 1) * 10 ^ Z.of_nat (Decimal.nb_digits d).
Proof.
  revert acc. induction d; intros acc; cbn [Pos.of_uint_acc Decimal.nb_digits];
    try (rewrite Nat2Z.inj_succ, Z.pow_succ_r by lia;
         match goal with
         | |- _ <= Z.pos (Pos.of_uint_acc _ ?x) < _ => specialize (IHd x)
         end;
         assert (0 < 10 ^ Z.of_nat (Decimal.nb_digits d))
           by (apply Z.pow_pos_nonneg; lia);
         nia).
  cbn. lia.
Qed.

Lemma of_uint_bound (d : Decimal.uint) :
  Z.of_uint d < 10 ^ Z.of_nat (Decimal.nb_digits d).
Proof.
  unfold Z.of_uint.
  induction d; cbn [Pos.of_uint Decimal.nb_digits];
    try (rewrite Nat2Z.inj_succ, Z.pow_succ_r by lia;
         assert (0 < 10 ^ Z.of_nat (Decimal.nb_digits d))
           by (apply Z.pow_pos_nonneg; lia)).
  - cbn. lia.
  - lia.
  - pose proof (of_uint_acc_bound d 1). cbn [Z.of_N]. lia.
  - pose proof (of_uint_acc_bound d 2). cbn [Z.of_N]. lia.
  - pose proof (of_uint_acc_bound d 3). cbn [Z.of_N]. lia.
  - pose proof (of_uint_acc_bound d 4). cbn [Z.of_N]. lia.
  - pose proof (of_uint_acc_bound d 5). cbn [Z.of_N]. lia.
  - pose proof (of_uint_acc_bound d 6). cbn [Z.of_N]. lia.
  - pose proof (of_uint_acc_bound d 7). cbn [Z.of_N]. lia.
  - pose proof (of_uint_acc_bound d 8). cbn [Z.of_N]. lia.
  - pose proof (of_uint_acc_bound d 9). cbn [Z.of_N]. lia.
Qed.

(** A numeral that does not start with a zero has a value of at least
    ten to the number of its other digits. *)
Lemma of_uint_lower (d : Decimal.uint) :
  d <> Decimal.Nil -> (forall d', d <> Decimal.D0 d') ->
  10 ^ (Z.of_nat (Decimal.nb_digits d) - 1) <= Z.of_uint d.
Proof.
  intros Hnil Hzero. unfold Z.of_uint.
  destruct d; [congruence | now contradiction (Hzero d) | ..];
    cbn [Pos.of_uint Decimal.nb_digits Z.of_N];
    rewrite Nat2Z.inj_succ;
    replace (Z.succ (Z.of_nat (Decimal.nb_digits d)) - 1)
      with (Z.of_nat (Decimal.nb_digits d)) by lia;
    match goal with
    | |- _ <= Z.pos (Pos.of_uint_acc _ ?x) =>
        pose proof (of_uint_acc_bound d x)
    end;
    assert (0 < 10 ^ Z.of_nat (Decimal.nb_digits d))
      by (apply Z.pow_pos_nonneg; lia);
    nia.
Qed.

Lemma string_of_uint_length (d : Decimal.uint) :
  String.length (NilEmpty.string_of_uint d) = Decimal.nb_digits d.
Proof. induction d; cbn; congruence. Qed.

(** A numeral of [n] characters denotes a number below [10 ^ n]. *)
Lemma int_bound (s : string) (n : Z) :
  Py.int s = Ok n -> 0 <= n < 10 ^ Z.of_nat (String.length s).
Proof.
  intros H. apply int_ok in H as (_ & d & E & ->).
  split; [apply of_uint_nonneg|].
  assert (Es : NilEmpty.uint_of_string s = Some d)
    by (destruct s; [discriminate | exact E]).
  apply NilEmpty.sus in Es. rewrite <- Es, string_of_uint_length.
  apply of_uint_bound.
Qed.

Lemma parse_endpoints_bound (s : string) (first last : Z) :
  RANGE_REGEX_fullmatch s = true ->
  parse_endpoints s = Ok (first, last) ->
  (0 <= first < 10 ^ Z.of_nat (String.length s) /\
   0 <= last < 10 ^ Z.of_nat (String.length s)) /\
  first < Py.str_limit /\ last < Py.str_limit.
Proof.
  intros H.
  destruct (parse_endpoints_parts s H)
    as (a & b & -> & _ & _ & _ & _ & _ & ->).
  destruct (Py.int a) as [x|] eqn:Ea; cbn [Py.bind]; [|discriminate].
  destruct (Py.int b) as [y|] eqn:Eb; cbn [Py.bind]; [|discriminate].
  intros [= <- <-].
  pose proof (int_ok _ _ Ea) as [La _]. pose proof (int_ok _ _ Eb) as [Lb _].
  apply int_bound in Ea, Eb.
  rewrite length_append. cbn [String.length].
  assert (10 ^ Z.of_nat (String.length a)
          <= 10 ^ Z.of_nat (String.length a + S (String.length b)))
    by (apply Z.pow_le_mono_r; lia).
  assert (10 ^ Z.of_nat (String.length b)
          <= 10 ^ Z.of_nat (String.length a + S (String.length b)))
    by (apply Z.pow_le_mono_r; lia).
  assert (10 ^ Z.of_nat (String.length a) <= Py.str_limit)
    by (apply Z.pow_le_mono_r; lia).
  assert (10 ^ Z.of_nat (String.length b) <= Py.str_limit)
    by (apply Z.pow_le_mono_r; lia).
  lia.
Qed.

End NumeralBounds.

(** ** Facts about the loop of [__call__] *)

Section LoopFacts.

Variable self : HousenumberSanitizer.
Variable itype : option itype_t.

Lemma name_or_split_extends (item : PlaceName) (st : loop_state) :
  name_or_split self item st =
  (fst st ++ fst (name_or_split self item ([], [])),
   snd st ++ snd (name_or_split self item ([], []))).
Proof.
  destruct st as [na nm]. unfold name_or_split.
  destruct (filter_name self (name item)); cbn; now rewrite List.app_nil_r.
Qed.

(** An iteration only appends, and what it appends does not depend on
    the state. *)
Lemma loop_body_extends (item : PlaceName) (st st' : loop_state) :
  loop_body self itype item st = Ok st' ->
  loop_body self itype item ([], []) =
    Ok (emitted self itype item, named self itype item) /\
  st' = (fst st ++ emitted self itype item, snd st ++ named self itype item).
Proof.
  unfold emitted, named, loop_body.
  destruct (filter_kind self (kind item)).
  - destruct itype as [it|].
    + destruct (RANGE_REGEX_fullmatch (name item)).
      * destruct (_expand_range it (name item)) as [[|h hnrs]|e];
          cbn [Py.bind]; [| |discriminate].
        -- intros [= <-]. split; [now rewrite <- surjective_pairing|].
           apply name_or_split_extends.
        -- destruct (Py.map_result Py.str (h :: hnrs)) as [values|e];
             cbn [Py.bind fst snd]; [|discriminate].
           intros [= <-]. cbn [List.app]. rewrite List.app_nil_r. now split.
      * intros [= <-].
        split; [now rewrite <- surjective_pairing|].
        apply name_or_split_extends.
    + intros [= <-].
      split; [now rewrite <- surjective_pairing|].
      apply name_or_split_extends.
  - destruct (negb (kind item =? "interpolation")%string); cbn;
      intros [= <-].
    + rewrite List.app_nil_r. now split.
    + rewrite !List.app_nil_r. split; [reflexivity | now destruct st].
Qed.

(** The whole loop appends, item after item, what each iteration adds. *)
Lemma loop_extends (items : list PlaceName) (st st' : loop_state) :
  loop self itype items st = Ok st' ->
  st' = (fst st ++ flat_map (emitted self itype) items,
         snd st ++ flat_map (named self itype) items).
Proof.
  revert st. induction items as [|item rest IH]; intros st; cbn.
  - intros H; inversion H; subst. rewrite !List.app_nil_r. now destruct st'.
  - destruct (loop_body self itype item st) as [st1|e] eqn:E; cbn; [|discriminate].
    intros H. apply IH in H. apply loop_body_extends in E as [_ ->].
    cbn in H. now rewrite <- !List.app_assoc in H.
Qed.

(** Every item put into [new_address] by an iteration that handles a
    housenumber candidate is a copy of the candidate of kind
    'housenumber'. *)
Lemma emitted_housenumber (item : PlaceName) :
  filter_kind self (kind item) = true ->
  Forall (fun o => kind o = "housenumber" /\ attrs o = attrs item)
         (emitted self itype item).
Proof.
  intros Hk. unfold emitted, loop_body. rewrite Hk.
  assert (Hns : Forall (fun o => kind o = "housenumber" /\ attrs o = attrs item)
                  (fst (name_or_split self item ([], [])))).
  { unfold name_or_split. destruct (filter_name self (name item)); cbn.
    - constructor.
    - apply Forall_forall. intros o Ho.
      apply in_map_iff in Ho as (n & <- & _). now split. }
  destruct itype as [it|]; [|exact Hns].
  destruct (RANGE_REGEX_fullmatch (name item)); [|exact Hns].
  destruct (_expand_range it (name item)) as [[|h hnrs]|e]; cbn [Py.bind].
  - exact Hns.
  - destruct (Py.map_result Py.str (h :: hnrs)) as [values|e];
      cbn [Py.bind fst List.app]; [|constructor].
    apply Forall_forall. intros o Ho.
    apply in_map_iff in Ho as (n & <- & _). now split.
  - constructor.
Qed.

Lemma emitted_passes_through (item : PlaceName) :
  passes_through self item = true ->
  emitted self itype item = [item] /\ named self itype item = [].
Proof.
  unfold passes_through, emitted, named, loop_body. intros H.
  apply andb_true_iff in H as [Hk Hi].
  apply negb_true_iff in Hk. rewrite Hk, Hi. now split.
Qed.

Lemma emitted_not_interpolation (item : PlaceName) :
  Forall (fun o => kind o <> "interpolation") (emitted self itype item).
Proof.
  destruct (filter_kind self (kind item)) eqn:Hk.
  - eapply Forall_impl; [|apply emitted_housenumber, Hk].
    intros o [Ho _]. rewrite Ho. discriminate.
  - unfold emitted, loop_body. rewrite Hk.
    destruct (String.eqb_spec (kind item) "interpolation") as [|Hne]; cbn.
    + constructor.
    + constructor; [exact Hne | constructor].
Qed.

End LoopFacts.

(** ** Facts about [str] *)

Section StrFacts.

Lemma string_of_uint_decimal (d : Decimal.uint) :
  Py.forall_chars Py.is_decimal (NilEmpty.string_of_uint d) = true.
Proof. induction d; cbn; trivial. Qed.

Lemma string_of_uint_head_zero (d : Decimal.uint) (r : string) :
  NilEmpty.string_of_uint d = String "0" r ->
  exists d', d = Decimal.D0 d' /\ r = NilEmpty.string_of_uint d'.
Proof. destruct d; cbn; intros [= <-]; eauto. Qed.

Lemma to_uint_no_leading_zero (p : positive) (d : Decimal.uint) :
  Pos.to_uint p <> Decimal.D0 d.
Proof.
  intros E.
  assert (Hn : Decimal.unorm (Pos.to_uint p) = Pos.to_uint p).
  { rewrite <- DecimalPos.Unsigned.to_of, DecimalPos.Unsigned.of_to.
    reflexivity. }
  rewrite E, unorm_D0 in Hn.
  destruct (Decimal.nzhead d) eqn:Ez;
    [ apply unorm_0 in Ez; rewrite Ez in Hn; injection Hn as <-;
      now apply (DecimalPos.Unsigned.to_uint_nonzero p)
    | rewrite unorm_nzhead in Hn by congruence;
      now apply nzhead_nonzero in Hn .. ].
Qed.

Lemma str_ok (n : Z) (v : string) :
  Py.str n = Ok v ->
  Z.abs n < Py.str_limit /\ v = NilZero.string_of_int (Z.to_int n).
Proof.
  unfold Py.str. destruct (Z.leb_spec Py.str_limit (Z.abs n)); [discriminate|].
  intros [= <-]. auto.
Qed.

Lemma str_returns (n : Z) :
  Z.abs n < Py.str_limit -> exists v, Py.str n = Ok v.
Proof.
  intros H. unfold Py.str.
  destruct (Z.leb_spec Py.str_limit (Z.abs n)); [lia | eauto].
Qed.

Lemma string_of_to_uint (p : positive) :
  NilZero.string_of_uint (Pos.to_uint p)
  = NilEmpty.string_of_uint (Pos.to_uint p).
Proof.
  pose proof (DecimalPos.Unsigned.to_uint_nonnil p).
  destruct (Pos.to_uint p); [congruence | reflexivity ..].
Qed.

(** [str] of a natural number is its canonical decimal numeral. *)
Lemma str_canonical (n : Z) (v : string) :
  0 <= n -> Py.str n = Ok v -> canonical_decimal v.
Proof.
  intros Hn Hv. apply str_ok in Hv as [_ ->].
  destruct n as [|p|p]; [|clear Hn|lia].
  - repeat split; [discriminate | now intros r [= <-]].
  - cbn [Z.to_int NilZero.string_of_int].
    pose proof (DecimalPos.Unsigned.to_uint_nonnil p) as Hnil.
    rewrite string_of_to_uint. repeat split.
    + apply string_of_uint_decimal.
    + destruct (Pos.to_uint p); [congruence | discriminate ..].
    + intros r Hr. apply string_of_uint_head_zero in Hr as (d' & Hd & _).
      now apply to_uint_no_leading_zero in Hd.
Qed.

(** [int] after [str] is the identity on natural numbers. *)
Lemma int_str (n : Z) (v : string) :
  0 <= n -> Py.str n = Ok v -> Py.int v = Ok n.
Proof.
  intros Hn Hv. apply str_ok in Hv as [Hlim ->]. unfold Py.int.
  destruct n as [|p|p]; [reflexivity| |lia].
  cbn [Z.to_int NilZero.string_of_int].
  rewrite NilZero.usu by apply DecimalPos.Unsigned.to_uint_nonnil.
  rewrite string_of_to_uint, string_of_uint_length.
  assert (Hv : Z.of_uint (Pos.to_uint p) = Z.pos p)
    by (unfold Z.of_uint; now rewrite DecimalPos.Unsigned.of_to).
  rewrite Hv.
  destruct (Nat.ltb_spec Py.max_str_digits
              (Decimal.nb_digits (Pos.to_uint p))) as [Hlong|]; [|reflexivity].
  exfalso.
  pose proof (of_uint_lower (Pos.to_uint p)
                (DecimalPos.Unsigned.to_uint_nonnil p)
                (fun d' => to_uint_no_leading_zero p d')) as Hlow.
  rewrite Hv in Hlow.
  assert (Py.str_limit
          <= 10 ^ (Z.of_nat (Decimal.nb_digits (Pos.to_uint p)) - 1))
    by (apply Z.pow_le_mono_r; lia).
  cbn [Z.abs] in Hlim. lia.
Qed.

Lemma str_nonempty (n : Z) (v : string) : Py.str n = Ok v -> v <> "".
Proof.
  intros Hv. apply str_ok in Hv as [_ ->].
  destruct n as [|p|p]; cbn; try discriminate.
  rewrite string_of_to_uint.
  pose proof (DecimalPos.Unsigned.to_uint_nonnil p).
  destruct (Pos.to_uint p); [congruence | discriminate ..].
Qed.

Lemma map_result_ok {A B : Type} (f : A -> result B) (l : list A)
  (l' : list B) :
  Py.map_result f l = Ok l' -> Forall2 (fun x y => f x = Ok y) l l'.
Proof.
  revert l'. induction l as [|x l IH]; intros l'; cbn.
  - intros [= <-]. constructor.
  - destruct (f x) as [y|e] eqn:Ex; cbn [Py.bind]; [|discriminate].
    destruct (Py.map_result f l) as [ys|e]; cbn [Py.bind]; [|discriminate].
    intros [= <-]. constructor; [exact Ex | now apply IH].
Qed.

Lemma map_result_returns {A B : Type} (f : A -> result B) (l : list A) :
  Forall (fun x => exists y, f x = Ok y) l ->
  exists l', Py.map_result f l = Ok l'.
Proof.
  induction 1 as [|x l [y Hy] _ [ys IH]]; cbn; [eauto|].
  rewrite Hy, IH. cbn. eauto.
Qed.

End StrFacts.

Section RangeBounds.

(** The numbers of a range lie between its two bounds. *)
Lemma range_lower_bound (start stop step : Z) (l : list Z) :
  Py.range start stop step = Ok l ->
  0 <= start -> 0 <= stop -> Forall (fun x => 0 <= x) l.
Proof.
  unfold Py.range. destruct (Z.eqb_spec step 0) as [|Hs]; [discriminate|].
  intros [= <-] H0 H1. apply Forall_forall. intros x Hx.
  apply in_map_iff in Hx as (i & <- & Hi). apply in_seq in Hi.
  destruct Hi as [_ Hi]. cbn in Hi. unfold Py.range_length in Hi.
  destruct (Z.ltb_spec 0 step) as [Hp|Hp]; [nia|].
  destruct (Z.ltb_spec stop start) as [Hlt|]; [|cbn in Hi; lia].
  assert (Hneg : 0 < - step) by lia.
  pose proof (Z.div_mod (start - stop - 1) (- step) ltac:(lia)) as Hdm.
  pose proof (Z.mod_pos_bound (start - stop - 1) (- step) Hneg) as Hm.
  assert (Hq : 0 <= (start - stop - 1) / - step) by (apply Z.div_pos; lia).
  apply Nat2Z.inj_lt in Hi. rewrite Z2Nat.id in Hi by lia. nia.
Qed.

End RangeBounds.

(** ** Facts about [_expand_range] and [__call__] *)

Section ExpansionFacts.

Lemma adjust_first_bounds (it : itype_t) (first : Z) :
  first <= adjust_first it first <= first + 1.
Proof.
  destruct it as [n|s]; cbn; [lia|].
  destruct (_ || _); lia.
Qed.

Lemma expand_range_finite (it : itype_t) (hnr : string) (first last : Z) :
  parse_endpoints hnr = Ok (first, last) ->
  0 < step_of it <= 9 ->
  quotient_finite (last + 1 - adjust_first it first) (step_of it) ->
  _expand_range it hnr =
    if last + 1 - adjust_first it first <? 10 * step_of it
    then Py.range (adjust_first it first) (last + 1) (step_of it)
    else Ok [].
Proof.
  intros Hp Hs Hq. unfold _expand_range. rewrite Hp. cbn [Py.bind].
  rewrite truediv_lt_10_finite; [reflexivity | lia | | exact Hq].
  assert (2 ^ 50 = 1125899906842624) by reflexivity. lia.
Qed.

Lemma expand_range_nonneg (it : itype_t) (hnr : string) (hnrs : list Z) :
  RANGE_REGEX_fullmatch hnr = true ->
  _expand_range it hnr = Ok hnrs ->
  Forall (fun x => 0 <= x) hnrs.
Proof.
  intros Hm. unfold _expand_range.
  destruct (parse_endpoints hnr) as [[first last]|e] eqn:Hp;
    cbn [Py.bind]; [|discriminate].
  destruct (parse_endpoints_bound hnr first last Hm Hp) as [[Hf Hl] _].
  destruct (Py.truediv_lt_10 _ _) as [[|]|e]; cbn [Py.bind]; try discriminate.
  - intros Hr. apply (range_lower_bound _ _ _ _ Hr).
    + pose proof (adjust_first_bounds it first). lia.
    + lia.
  - intros [= <-]. constructor.
Qed.

Lemma first_interpolation_none (addr : list PlaceName) :
  Forall (fun i => kind i <> "interpolation") addr ->
  first_interpolation addr = None.
Proof.
  unfold first_interpolation. induction 1 as [|i addr Hi _ IH]; cbn; [easy|].
  destruct (String.eqb_spec (kind i) "interpolation"); [contradiction|].
  exact IH.
Qed.

(** What [__call__] leaves in the record when it returns. *)
Lemma call_returns (self : HousenumberSanitizer) (obj obj' : ProcessInfo) :
  __call__ self obj = Ok obj' ->
  exists itype,
    discover_itype self (address obj) = Ok itype /\
    address obj' = flat_map (emitted self itype) (address obj) /\
    names obj' = names obj ++ flat_map (named self itype) (address obj).
Proof.
  unfold __call__. destruct (address obj) as [|i rest] eqn:Ea.
  - intros [= <-]. exists None. rewrite Ea. cbn.
    rewrite List.app_nil_r. split; [|easy].
    unfold discover_itype. now destruct (expand_interpolations self).
  - destruct (discover_itype self (i :: rest)) as [itype|e];
      cbn [Py.bind]; [|discriminate].
    destruct (loop self itype (i :: rest) ([], names obj)) as [st|e] eqn:El;
      cbn [Py.bind]; [|discriminate].
    intros [= <-]. exists itype. apply loop_extends in El. subst st.
    cbn. auto.
Qed.

End ExpansionFacts.

Section RegularFacts.

Variable self : HousenumberSanitizer.

Lemma loop_body_regular (item : PlaceName) (st : loop_state) :
  regular_item self item ->
  loop_body self None item st = Ok (fst st ++ [as_housenumber self item], snd st).
Proof.
  intros [Hk Hh]. unfold loop_body, as_housenumber.
  destruct (filter_kind self (kind item)).
  - destruct (Hh eq_refl) as (_ & Hn & Hs). destruct st as [na nm].
    unfold name_or_split. now rewrite Hn, Hs.
  - destruct (String.eqb_spec (kind item) "interpolation"); [contradiction|].
    reflexivity.
Qed.

Lemma loop_regular (items : list PlaceName) (st : loop_state) :
  Forall (regular_item self) items ->
  loop self None items st = Ok (fst st ++ map (as_housenumber self) items, snd st).
Proof.
  intros H. revert st. induction H as [|item rest Hi _ IH]; intros st; cbn.
  - rewrite List.app_nil_r. now destruct st.
  - rewrite (loop_body_regular item st Hi). cbn. rewrite IH. cbn.
    now rewrite <- List.app_assoc.
Qed.

Lemma as_housenumber_regular (item : PlaceName) :
  regular_item self item -> regular_item self (as_housenumber self item).
Proof.
  intros [Hk Hh]. unfold as_housenumber.
  destruct (filter_kind self (kind item)) eqn:E.
  - split; [discriminate|]. intros _. exact (Hh eq_refl).
  - split; [exact Hk|]. rewrite E. discriminate.
Qed.

Lemma as_housenumber_idempotent (item : PlaceName) :
  as_housenumber self (as_housenumber self item) = as_housenumber self item.
Proof.
  unfold as_housenumber.
  destruct (filter_kind self (kind item)) eqn:E; [|now rewrite E].
  cbn. now destruct (filter_kind self "housenumber").
Qed.

Lemma call_regular (obj : ProcessInfo) :
  regular self obj ->
  __call__ self obj = Ok {| address := map (as_housenumber self) (address obj);
                        names := names obj |}.
Proof.
  unfold regular, __call__. intros H. destruct obj as [addr nm]. cbn in *.
  destruct addr as [|i rest]; [reflexivity|].
  unfold discover_itype. rewrite first_interpolation_none.
  2:{ eapply Forall_impl; [|exact H]. now intros a [Ha _]. }
  assert (E : (if expand_interpolations self then Ok None else Ok None)
              = Ok (@None itype_t))
    by now destruct (expand_interpolations self).
  rewrite E. cbn [Py.bind]. rewrite (loop_regular _ _ H). reflexivity.
Qed.

End RegularFacts.

(** ** The interpolation type *)

Section DirectiveFacts.

Lemma int_decimal_char (c : ascii) :
  Py.is_decimal c = true ->
  Py.int (String c "") = Ok (Z.of_nat (nat_of_ascii c) - 48).
Proof.
  destruct c as [[] [] [] [] [] [] [] []]; cbv; intros H;
    solve [discriminate H | reflexivity].
Qed.

Lemma int_superscript_char (c : ascii) :
  Py.isdigit_char c = true -> Py.is_decimal c = false ->
  Py.int (String c "") = Raise ValueError.
Proof.
  destruct c as [[] [] [] [] [] [] [] []]; cbv; intros H1 H2;
    solve [discriminate H1 | discriminate H2 | reflexivity].
Qed.

Lemma single_char (t : string) :
  Nat.eqb (String.length t) 1 = true -> exists c, t = String c "".
Proof.
  destruct t as [|c [|c' t]]; cbn; try discriminate. intros _. now exists c.
Qed.

(** How the token of the interpolation item is read (lines 57 to 63):
    'all' is step 1, a single decimal character is that step, 'odd' and
    'even' stay as they are, a single superscript digit makes [int]
    raise, and every other token disables the expansion. *)
Lemma resolve_itype_cases (t : string) :
  (t = "all" /\ resolve_itype t = Ok (Some (IInt 1))) \/
  (exists c, t = String c "" /\ Py.is_decimal c = true /\
     resolve_itype t = Ok (Some (IInt (Z.of_nat (nat_of_ascii c) - 48)))) \/
  (exists c, t = String c "" /\ Py.is_decimal c = false /\
     Py.isdigit_char c = true /\ resolve_itype t = Raise ValueError) \/
  ((t = "odd" \/ t = "even") /\ resolve_itype t = Ok (Some (IStr t))) \/
  (t <> "all" /\ t <> "odd" /\ t <> "even" /\
   (forall c, t = String c "" -> Py.isdigit_char c = false) /\
   resolve_itype t = Ok None).
Proof.
  unfold resolve_itype.
  destruct (String.eqb_spec t "all") as [->|Hall]; [now left|].
  right.
  destruct (Nat.eqb (String.length t) 1) eqn:Hlen; cbn [andb].
  - destruct (single_char t Hlen) as [c ->].
    assert (Ed : Py.isdigit (String c "") = Py.isdigit_char c)
      by (cbn; apply andb_true_r).
    rewrite Ed. destruct (Py.isdigit_char c) eqn:Hd.
    + destruct (Py.is_decimal c) eqn:Hc.
      * left. exists c. rewrite (int_decimal_char c Hc). now cbn.
      * right; left. exists c. rewrite (int_superscript_char c Hd Hc). now cbn.
    + do 3 right. cbn. repeat split; try discriminate; trivial.
      * now intros c' [= <-].
      * now destruct (Ascii.eqb c "o"), (Ascii.eqb c "e").
  - destruct (String.eqb_spec t "odd") as [->|Hodd]; [do 2 right; left; cbn; auto|].
    destruct (String.eqb_spec t "even") as [->|Heven]; [do 2 right; left; cbn; auto|].
    do 3 right. cbn. repeat split; trivial.
    intros c ->. discriminate Hlen.
Qed.

End DirectiveFacts.

(** ** Runs of the transform on concrete records *)

Example run_parity_correction :
  __call__ default_sanitizer
    (record [item "street" "Main"; item "housenumber" "11-16";
             item "interpolation" "even"])
  = Ok (record [item "street" "Main"; item "housenumber" "12";
                item "housenumber" "14"; item "housenumber" "16"]).
Proof. vm_compute. reflexivity. Qed.

Example run_size_rejection :
  __call__ default_sanitizer
    (record [item "housenumber" "1-100"; item "interpolation" "2"])
  = Ok (record [item "housenumber" "1-100"]).
Proof. vm_compute. reflexivity. Qed.

Example run_list_splitting :
  __call__ default_sanitizer (record [item "housenumber" "12;14,,16"])
  = Ok (record [item "housenumber" "12"; item "housenumber" "14";
                item "housenumber" "16"]).
Proof. vm_compute. reflexivity. Qed.

Example run_name_reclassification :
  __call__ private_sanitizer (record [item "housenumber" "private"])
  = Ok {| address := []; names := [item "housenumber" "private"] |}.
Proof. vm_compute. reflexivity. Qed.

Example run_descending_range :
  __call__ default_sanitizer
    (record [item "interpolation" "all"; item "housenumber" "16-12"])
  = Ok (record [item "housenumber" "16-12"]).
Proof. vm_compute. reflexivity. Qed.

Example run_disabled_expansion :
  __call__ {| filter_kind := literal_filter ["housenumber"];
              split_regexp_split := split_on default_delimiters;
              filter_name := fail_all;
              expand_interpolations := false |}
    (record [item "housenumber" "12-16"; item "interpolation" "even"])
  = Ok (record [item "housenumber" "12-16"]).
Proof. vm_compute. reflexivity. Qed.

Example run_runtime :
  Py.split "-" "12-16" = ["12"; "16"] /\ Py.split "-" "-a-" = [""; "a"; ""] /\
  Py.int "008" = Ok 8 /\ Py.int "" = Raise ValueError /\
  Py.str 10 = Ok "10" /\ Py.range 12 17 2 = Ok [12; 14; 16] /\
  Py.truediv_lt_10 50 5 = Ok false /\ Py.truediv_lt_10 49 5 = Ok true /\
  Py.truediv_lt_10 (10 ^ 18 - 1) (10 ^ 17) = Ok false /\
  Py.int (String "1" (zeros 4299)) = Ok (10 ^ 4299) /\
  Py.int (String "1" (zeros 4300)) = Raise ValueError /\
  Py.str (10 ^ 4300) = Raise ValueError.
Proof. repeat split; vm_compute; reflexivity. Qed.

(** ** Auxiliary facts about range expansion *)

Section ParityFacts.

Lemma mod2_odd (z : Z) : (z mod 2 =? 1) = Z.odd z.
Proof. rewrite Zmod_odd. now destruct (Z.odd z). Qed.

Lemma mod2_even (z : Z) : (z mod 2 =? 0) = Z.even z.
Proof. rewrite Zmod_even. now destruct (Z.even z). Qed.

Lemma ascending_run_descending (first last step : Z) (l : list Z) :
  0 < step -> last < first -> ascending_run first last step l -> l = [].
Proof.
  intros Hs Hd [_ Hin]. destruct l as [|x l]; [reflexivity|].
  destruct (proj1 (Hin x) (or_introl eq_refl)) as (k & Hk & -> & Hle). nia.
Qed.

End ParityFacts.

(** A descending range whose quotient has a float value does fall
    through: the expansion returns no number and the item is handled by
    lines 75 to 79 like an item that is no range. *)
Lemma descending_range_falls_through
  (self : HousenumberSanitizer) (it : itype_t) (i : PlaceName)
  (st : loop_state) (first last : Z) :
  filter_kind self (kind i) = true ->
  RANGE_REGEX_fullmatch (name i) = true ->
  parse_endpoints (name i) = Ok (first, last) ->
  0 < step_of it <= 9 ->
  quotient_finite (last + 1 - adjust_first it first) (step_of it) ->
  last < adjust_first it first ->
  _expand_range it (name i) = Ok [] /\
  loop_body self (Some it) i st = Ok (name_or_split self i st).
Proof.
  intros Hk Hm Hp Hs Hq Hd.
  assert (E : _expand_range it (name i) = Ok []).
  { rewrite (expand_range_finite it (name i) first last Hp Hs Hq).
    destruct (Z.ltb_spec (last + 1 - adjust_first it first) (10 * step_of it));
      [|reflexivity].
    destruct (range_ascending (adjust_first it first) (step_of it)
                (proj1 Hs) last) as (l & -> & _ & Hl).
    f_equal. now apply Hl. }
  split; [exact E|]. unfold loop_body. now rewrite Hk, Hm, E.
Qed.

(** Under the default delimiters a value that matches the range pattern
    is a single token. *)
Lemma default_split_range (s : string) :
  RANGE_REGEX_fullmatch s = true -> sanitize default_sanitizer s = [s].
Proof.
  intros H. apply RANGE_REGEX_fullmatch_iff in H
    as (a & b & -> & Ha & Hna & Hb & Hnb).
  assert (Hsplit : forall t, Py.forall_chars
            (fun c => Py.is_decimal c || Ascii.eqb c "-")%bool t = true ->
            split_on default_delimiters t = [t]).
  { induction t as [|c t IH]; cbn; [reflexivity|]. intros H.
    apply andb_true_iff in H as [Hc Ht]. rewrite (IH Ht).
    destruct c as [[] [] [] [] [] [] [] []]; cbv in Hc;
      solve [discriminate Hc | reflexivity]. }
  assert (Hall : forall x y, Py.forall_chars Py.is_decimal x = true ->
            Py.forall_chars Py.is_decimal y = true ->
            Py.forall_chars (fun c => Py.is_decimal c || Ascii.eqb c "-")%bool
              (x ++ String "-" y) = true).
  { induction x as [|c x IH]; cbn; intros y Hx Hy.
    - apply (forall_chars_impl Py.is_decimal); [|exact Hy].
      intros c ->. reflexivity.
    - apply andb_true_iff in Hx as [-> Hx]. cbn. now apply IH. }
  unfold sanitize. cbn [split_regexp_split default_sanitizer].
  rewrite (Hsplit _ (Hall a b Ha Hb)).
  destruct a as [|x a]; [congruence|]. reflexivity.
Qed.

(** ** Facts about a returning call *)

Section ReturnFacts.

Variable self : HousenumberSanitizer.

(** When the loop returns, every iteration has returned. *)
Lemma loop_ok_each (itype : option itype_t) (items : list PlaceName)
  (st st' : loop_state) :
  loop self itype items st = Ok st' ->
  forall i, In i items ->
    loop_body self itype i ([], [])
    = Ok (emitted self itype i, named self itype i).
Proof.
  revert st. induction items as [|j rest IH]; intros st H i Hi; [destruct Hi|].
  cbn in H. destruct (loop_body self itype j st) as [st1|e] eqn:E;
    cbn [Py.bind] in H; [|discriminate].
  destruct Hi as [<- | Hi].
  - now apply loop_body_extends in E as [E _].
  - exact (IH st1 H i Hi).
Qed.

(** What a returning call leaves in the record, seen from one item of
    the address. *)
Lemma call_split (obj obj' : ProcessInfo) (pre post : list PlaceName)
  (i : PlaceName) :
  __call__ self obj = Ok obj' ->
  address obj = pre ++ i :: post ->
  exists itype,
    discover_itype self (address obj) = Ok itype /\
    address obj' = flat_map (emitted self itype) pre
                   ++ emitted self itype i
                   ++ flat_map (emitted self itype) post /\
    names obj' = names obj ++ flat_map (named self itype) pre
                 ++ named self itype i
                 ++ flat_map (named self itype) post /\
    loop_body self itype i ([], [])
    = Ok (emitted self itype i, named self itype i).
Proof.
  intros H Ea. unfold __call__ in H.
  destruct (address obj) as [|a rest] eqn:Eaddr.
  { now destruct pre. }
  rewrite <- Eaddr in *. clear Eaddr a rest.
  destruct (discover_itype self (address obj)) as [itype|e];
    cbn [Py.bind] in H; [|discriminate].
  destruct (loop self itype (address obj) ([], names obj)) as [st|e] eqn:El;
    cbn [Py.bind] in H; [|discriminate].
  injection H as <-. exists itype. split; [reflexivity|].
  pose proof (loop_ok_each itype _ _ _ El i) as Hi.
  apply loop_extends in El. subst st. cbn [address names fst snd List.app].
  rewrite Ea, !flat_map_app. cbn [flat_map].
  repeat split.
  apply Hi. rewrite Ea. apply in_elt.
Qed.

Lemma truediv_lt_10_ok (a b : Z) (small : bool) :
  Py.truediv_lt_10 a b = Ok small ->
  quotient_finite a b /\
  small = (a * Z.sgn b * 2 ^ 50 <? (10 * 2 ^ 50 - 1) * Z.abs b).
Proof.
  unfold Py.truediv_lt_10, quotient_finite.
  destruct (Z.eqb_spec b 0); [discriminate|].
  destruct (Z.leb_spec (Py.float_overflow * Z.abs b) (Z.abs a));
    [discriminate|].
  intros [= <-]. auto.
Qed.

(** When [_expand_range] returns, the endpoints have parsed, the step is
    not zero and the division has returned. *)
Lemma expand_range_inv (it : itype_t) (hnr : string) (hnrs : list Z) :
  _expand_range it hnr = Ok hnrs ->
  exists first last small,
    parse_endpoints hnr = Ok (first, last) /\
    Py.truediv_lt_10 (last + 1 - adjust_first it first) (step_of it)
    = Ok small /\
    if small
    then Py.range (adjust_first it first) (last + 1) (step_of it) = Ok hnrs
    else hnrs = [].
Proof.
  unfold _expand_range.
  destruct (parse_endpoints hnr) as [[first last]|e] eqn:Ep;
    cbn [Py.bind]; [|discriminate].
  destruct (Py.truediv_lt_10 _ _) as [small|e] eqn:Ed;
    cbn [Py.bind]; [|discriminate].
  intros H. exists first, last, small. split; [reflexivity|].
  split; [exact Ed|]. destruct small; [exact H | now injection H].
Qed.

(** A returning iteration on a range candidate under an interpolation
    type: the expansion has returned, and either it gave no number and
    lines 75 to 79 ran, or every number was converted and emitted. *)
Lemma loop_body_candidate (it : itype_t) (i : PlaceName)
  (e n : list PlaceName) :
  filter_kind self (kind i) = true ->
  RANGE_REGEX_fullmatch (name i) = true ->
  loop_body self (Some it) i ([], []) = Ok (e, n) ->
  exists hnrs,
    _expand_range it (name i) = Ok hnrs /\
    ((hnrs = [] /\ (e, n) = name_or_split self i ([], [])) \/
     (hnrs <> [] /\ n = [] /\
      exists values, Py.map_result Py.str hnrs = Ok values /\
                     e = map (housenumber_of i) values)).
Proof.
  intros Hk Hm. unfold loop_body. rewrite Hk, Hm.
  destruct (_expand_range it (name i)) as [[|h hnrs]|x];
    cbn [Py.bind]; [| |discriminate].
  - intros [= E]. exists []. split; [reflexivity|]. left. auto.
  - destruct (Py.map_result Py.str (h :: hnrs)) as [values|x] eqn:Ev;
      cbn [Py.bind fst snd List.app]; [|discriminate].
    intros [= <- <-]. exists (h :: hnrs). split; [reflexivity|]. right.
    split; [discriminate|]. split; [reflexivity|]. eauto.
Qed.

(** An iteration on a housenumber candidate that is not expanded runs
    lines 75 to 79. *)
Lemma loop_body_not_expanded (itype : option itype_t) (i : PlaceName)
  (st : loop_state) :
  filter_kind self (kind i) = true ->
  not_expanded itype i ->
  loop_body self itype i st = Ok (name_or_split self i st).
Proof.
  intros Hk He. unfold loop_body. rewrite Hk.
  destruct itype as [it|]; [|reflexivity].
  destruct He as [-> | He]; [reflexivity|].
  destruct (RANGE_REGEX_fullmatch (name i)); [|reflexivity].
  now rewrite He.
Qed.

Lemma emitted_named_of (itype : option itype_t) (i : PlaceName)
  (st : loop_state) :
  loop_body self itype i ([], []) = Ok st ->
  emitted self itype i = fst st /\ named self itype i = snd st.
Proof. unfold emitted, named. now intros ->. Qed.

End ReturnFacts.

Section ResolvedFacts.

Variable self : HousenumberSanitizer.

Lemma decimal_value_range (c : ascii) :
  Py.is_decimal c = true -> 0 <= Z.of_nat (nat_of_ascii c) - 48 <= 9.
Proof.
  unfold Py.is_decimal. intros H. apply andb_true_iff in H as [H1 H2].
  apply Nat.leb_le in H1, H2. lia.
Qed.

(** What [resolve_itype] returns is a digit step, 'odd' or 'even'; the
    step is zero only for the token '0'. *)
Lemma resolve_itype_resolved (t : string) (it : itype_t) :
  resolve_itype t = Ok (Some it) ->
  resolved it /\ (step_of it = 0 -> t = "0").
Proof.
  intros H. unfold resolved.
  destruct (resolve_itype_cases t)
    as [[-> E] | [(c & -> & Hc & E) | [(c & _ & _ & _ & E)
        | [[Ht E] | (_ & _ & _ & _ & E)]]]];
    rewrite E in H; try discriminate; injection H as <-.
  - split; [left; exists 1; split; [reflexivity | lia] | discriminate].
  - pose proof (decimal_value_range c Hc) as Hr. split.
    + left. eexists. split; [reflexivity | exact Hr].
    + cbn. intros Hz.
      assert (Hn : nat_of_ascii c = 48%nat) by lia.
      rewrite <- (ascii_nat_embedding c), Hn. reflexivity.
  - split; [destruct Ht as [-> | ->]; auto | discriminate].
Qed.

Lemma resolve_itype_raise (t : string) (e : exn) :
  resolve_itype t = Raise e -> e = ValueError /\ superscript_token t.
Proof.
  intros H. unfold superscript_token.
  destruct (resolve_itype_cases t)
    as [[_ E] | [(c & _ & _ & E) | [(c & -> & Hc & Hd & E)
        | [[_ E] | (_ & _ & _ & _ & E)]]]];
    rewrite E in H; try discriminate.
  injection H as <-. split; [reflexivity|]. exists c. auto.
Qed.

Lemma discover_itype_some (addr : list PlaceName) (it : itype_t) :
  discover_itype self addr = Ok (Some it) ->
  expand_interpolations self = true /\
  exists t, first_interpolation addr = Some t /\
            resolve_itype t = Ok (Some it).
Proof.
  unfold discover_itype. destruct (expand_interpolations self); [|discriminate].
  destruct (first_interpolation addr) as [t|]; [|discriminate]. eauto.
Qed.

Lemma discover_itype_raise (addr : list PlaceName) (e : exn) :
  discover_itype self addr = Raise e ->
  expand_interpolations self = true /\
  exists t, first_interpolation addr = Some t /\ resolve_itype t = Raise e.
Proof.
  unfold discover_itype. destruct (expand_interpolations self); [|discriminate].
  destruct (first_interpolation addr) as [t|]; [|discriminate]. eauto.
Qed.

Lemma resolved_step (it : itype_t) : resolved it -> 0 <= step_of it <= 9.
Proof. intros [(n & -> & Hn) | [-> | ->]]; cbn; lia. Qed.

End ResolvedFacts.

(** ** The properties of the transform *)

(** C1: the transform is claimed never to raise, in particular not for
    an interpolation item with token '0' next to a housenumber item whose
    value matches the range pattern.  On that record the true division of
    line 110 divides by zero: the call raises [ZeroDivisionError]. *)
Theorem C1_zero_step_raises :
  __call__ default_sanitizer
    (record [item "interpolation" "0"; item "housenumber" "1-2"])
  = Raise ZeroDivisionError.
Proof. vm_compute. reflexivity. Qed.

(** C2, as stated, fails on a descending range: for the value '16-12' and
    step 1 the count is -3, below 10, and no integer from 16 upwards stays
    below 12, yet the item is not replaced by that empty run: the
    transform passes it on with its value unchanged. *)
Lemma C2_descending_not_expanded :
  filter_kind default_sanitizer (kind (item "housenumber" "16-12")) = true /\
  RANGE_REGEX_fullmatch "16-12" = true /\
  parse_endpoints "16-12" = Ok (16, 12) /\
  (count 16 12 1 < 10)%Q /\
  ascending_run 16 12 1 [] /\
  __call__ default_sanitizer
    (record [item "interpolation" "all"; item "housenumber" "16-12"])
  = Ok (record [item "housenumber" "16-12"]) /\
  ~ (exists hnrs values,
       ascending_run 16 12 1 hnrs /\
       Forall2 (fun n v => Py.str n = Ok v) hnrs values /\
       __call__ default_sanitizer
         (record [item "interpolation" "all"; item "housenumber" "16-12"])
       = Ok (record (map (housenumber_of (item "housenumber" "16-12")) values))).
Proof.
  split; [reflexivity|]. split; [reflexivity|].
  split; [vm_compute; reflexivity|].
  split; [reflexivity|]. split.
  { split; [constructor|]. intros x. split; [intros []|].
    intros (k & Hk & -> & Hle). lia. }
  split; [vm_compute; reflexivity|].
  intros (hnrs & values & Hrun & Hv & E).
  apply ascending_run_descending in Hrun; [|lia ..]. subst hnrs.
  inversion Hv; subst. vm_compute in E. discriminate E.
Qed.

(** C2, amended: whenever the transform returns with an interpolation
    type set, take a housenumber candidate of the address whose value
    matches the range pattern.  Its endpoints [first0] and [last] have
    parsed and the step is positive.  Under 'even' with an odd first
    endpoint, and under 'odd' with an even one, the first endpoint is
    incremented by one.  With [count = (last + 1 - first) / step]: if
    [count < 10] and [first <= last], the candidate is replaced, at its
    place in the address, by exactly the ascending integers first,
    first+step, ... not exceeding last, each as a copy of the candidate
    of kind 'housenumber' whose value is the decimal numeral, and nothing
    goes to the names; if [count >= 10], or if [last < first], the
    expansion returns no number and the candidate is handled by the name
    and splitting steps of lines 75 to 79 with its value unchanged. *)
Theorem C2_range_expansion
  (self : HousenumberSanitizer) (obj obj' : ProcessInfo) (it : itype_t)
  (pre post : list PlaceName) (i : PlaceName) :
  __call__ self obj = Ok obj' ->
  discover_itype self (address obj) = Ok (Some it) ->
  address obj = pre ++ i :: post ->
  filter_kind self (kind i) = true ->
  RANGE_REGEX_fullmatch (name i) = true ->
  exists first0 last,
    parse_endpoints (name i) = Ok (first0, last) /\
    0 < step_of it /\
    (forall s, it = IStr s ->
       step_of it = 2 /\
       adjust_first it first0 =
         if ((s =? "even")%string && Z.odd first0)
            || ((s =? "odd")%string && Z.even first0)
         then first0 + 1 else first0) /\
    (forall n, it = IInt n ->
       step_of it = n /\ adjust_first it first0 = first0) /\
    ((count (adjust_first it first0) last (step_of it) < 10)%Q ->
     adjust_first it first0 <= last ->
     exists hnrs values,
       hnrs <> [] /\
       ascending_run (adjust_first it first0) last (step_of it) hnrs /\
       Forall2 (fun n v => Py.str n = Ok v) hnrs values /\
       address obj'
       = flat_map (emitted self (Some it)) pre
         ++ map (fun v => {| name := v; kind := "housenumber";
                             attrs := attrs i |}) values
         ++ flat_map (emitted self (Some it)) post /\
       names obj'
       = names obj ++ flat_map (named self (Some it)) pre
         ++ flat_map (named self (Some it)) post) /\
    ((10 <= count (adjust_first it first0) last (step_of it))%Q
     \/ last < adjust_first it first0 ->
     _expand_range it (name i) = Ok [] /\
     address obj'
     = flat_map (emitted self (Some it)) pre
       ++ fst (name_or_split self i ([], []))
       ++ flat_map (emitted self (Some it)) post /\
     names obj'
     = names obj ++ flat_map (named self (Some it)) pre
       ++ snd (name_or_split self i ([], []))
       ++ flat_map (named self (Some it)) post).
Proof.
  intros Hcall Hd Ea Hk Hm.
  destruct (call_split self obj obj' pre post i Hcall Ea)
    as (itype & Hd' & Haddr & Hnames & Hbody).
  rewrite Hd in Hd'. injection Hd' as <-.
  destruct (loop_body_candidate self it i _ _ Hk Hm Hbody)
    as (hnrs & He & Hcases).
  destruct (expand_range_inv it (name i) hnrs He)
    as (first0 & last & small & Hp & Hdiv & Hsmall).
  exists first0, last. split; [exact Hp|].
  pose proof (truediv_lt_10_ok _ _ _ Hdiv) as [Hq _].
  apply discover_itype_some in Hd as (_ & t & _ & Hr).
  apply resolve_itype_resolved in Hr as [Hres _].
  apply resolved_step in Hres.
  assert (Hs : 0 < step_of it) by (destruct Hq; lia).
  assert (H50 : step_of it < 2 ^ 50)
    by (assert (2 ^ 50 = 1125899906842624) by reflexivity; lia).
  rewrite (truediv_lt_10_finite _ _ Hs H50 Hq) in Hdiv.
  assert (Esmall : small
                   = (last + 1 - adjust_first it first0 <? 10 * step_of it))
    by congruence.
  clear Hdiv.
  pose proof (count_lt_iff (step_of it) Hs (adjust_first it first0) last) as Hc.
  split; [exact Hs|]. split; [|split; [|split]].
  - intros s ->. cbn. now rewrite mod2_odd, mod2_even.
  - intros n ->. now cbn.
  - intros Hlt Hle. apply Hc in Hlt. apply Z.ltb_lt in Hlt.
    rewrite Esmall, Hlt in Hsmall.
    destruct (range_ascending (adjust_first it first0) (step_of it) Hs last)
      as (l & Hr & Hrun & Hnil).
    rewrite Hr in Hsmall. injection Hsmall as ->.
    assert (Hne : hnrs <> []) by (intros El; apply Hnil in El; lia).
    destruct Hcases as [[Hnone _] | (_ & Hn & values & Hv & Hem)];
      [contradiction|].
    exists hnrs, values. split; [exact Hne|]. split; [exact Hrun|].
    split; [exact (map_result_ok _ _ _ Hv)|].
    rewrite Haddr, Hnames, Hem, Hn. split; reflexivity.
  - intros Hor.
    assert (Hnone : hnrs = []).
    { rewrite Esmall in Hsmall.
      destruct (Z.ltb_spec (last + 1 - adjust_first it first0)
                  (10 * step_of it)) as [Hlt | Hge]; [|exact Hsmall].
      destruct Hor as [Hge | Hdesc].
      - apply Hc in Hlt. now apply Qlt_not_le in Hlt.
      - destruct (range_ascending (adjust_first it first0) (step_of it)
                    Hs last) as (l & Hr & _ & Hnil).
        rewrite Hr in Hsmall. injection Hsmall as ->. now apply Hnil. }
    subst hnrs. split; [exact He|].
    destruct Hcases as [[_ Hns] | (Hne & _)]; [|congruence].
    rewrite Haddr, Hnames, <- Hns. split; reflexivity.
Qed.

Lemma C2_range_expansion_witness :
  __call__ default_sanitizer
    (record [item "interpolation" "even"; item "housenumber" "11-16"])
  = Ok (record [item "housenumber" "12"; item "housenumber" "14";
                item "housenumber" "16"]) /\
  discover_itype default_sanitizer
    [item "interpolation" "even"; item "housenumber" "11-16"]
  = Ok (Some (IStr "even")) /\
  filter_kind default_sanitizer (kind (item "housenumber" "11-16")) = true /\
  RANGE_REGEX_fullmatch (name (item "housenumber" "11-16")) = true /\
  exists first0 last,
    parse_endpoints (name (item "housenumber" "11-16")) = Ok (first0, last) /\
    0 < step_of (IStr "even").
Proof.
  split; [vm_compute; reflexivity|]. split; [reflexivity|].
  split; [reflexivity|]. split; [reflexivity|].
  destruct (C2_range_expansion default_sanitizer
              (record [item "interpolation" "even"; item "housenumber" "11-16"])
              (record [item "housenumber" "12"; item "housenumber" "14";
                       item "housenumber" "16"])
              (IStr "even") [item "interpolation" "even"] []
              (item "housenumber" "11-16"))
    as (first0 & last & Hp & Hs & _);
    [vm_compute; reflexivity | reflexivity | reflexivity | reflexivity
    | reflexivity |].
  exists first0, last. split; [exact Hp | exact Hs].
Defined.

(** C3: the interpolation type is claimed to be disabled for every token
    that is not 'all', 'odd', 'even' or one ASCII digit.  The token made
    of the single character SUPERSCRIPT TWO passes [isdigit] and reaches
    [int], which raises [ValueError]: no interpolation type is produced
    and the call fails. *)
Theorem C3_superscript_digit_raises :
  Py.isdigit superscript_two = true /\
  Py.is_decimal "178" = false /\
  resolve_itype superscript_two = Raise ValueError /\
  __call__ default_sanitizer (record [item "interpolation" superscript_two])
  = Raise ValueError.
Proof. repeat split; vm_compute; reflexivity. Qed.

(** C4, as stated, fails: with a [filter-kind] that matches
    'interpolation' the interpolation item is handled as a housenumber
    candidate and comes out as an item of kind 'housenumber'. *)
Lemma C4_interpolation_kept_as_housenumber :
  filter_kind interpolation_sanitizer "interpolation" = true /\
  kind (item "interpolation" "even") = "interpolation" /\
  loop_body interpolation_sanitizer (Some (IStr "even"))
    (item "interpolation" "even") ([], [])
  = Ok ([item "housenumber" "even"], []) /\
  __call__ interpolation_sanitizer (record [item "interpolation" "even"])
  = Ok (record [item "housenumber" "even"]).
Proof. repeat split; vm_compute; reflexivity. Qed.


(** C4, amended: when the housenumber filter does not match the kind
    'interpolation' and the transform returns, an item of kind
    'interpolation' of the old address is dropped: the new address and
    the new names are made of what the items before it and the items
    after it contribute, nothing stands for the item itself, and the
    item is not in the new address. *)
Theorem C4_interpolation_dropped
  (self : HousenumberSanitizer) (obj obj' : ProcessInfo)
  (pre post : list PlaceName) (i : PlaceName) :
  filter_kind self "interpolation" = false ->
  __call__ self obj = Ok obj' ->
  address obj = pre ++ i :: post ->
  kind i = "interpolation" ->
  exists itype,
    discover_itype self (address obj) = Ok itype /\
    address obj'
    = flat_map (emitted self itype) pre ++ flat_map (emitted self itype) post /\
    names obj'
    = names obj ++ flat_map (named self itype) pre
      ++ flat_map (named self itype) post /\
    ~ In i (address obj').
Proof.
  intros Hf Hcall Ea Hk.
  destruct (call_split self obj obj' pre post i Hcall Ea)
    as (itype & Hd & Haddr & Hnames & Hbody).
  assert (Hdrop : loop_body self itype i ([], []) = Ok ([], []))
    by (unfold loop_body; now rewrite Hk, Hf).
  rewrite Hdrop in Hbody. injection Hbody as He Hn.
  rewrite <- He in Haddr. rewrite <- Hn in Hnames.
  exists itype. split; [exact Hd|]. split; [exact Haddr|].
  split; [exact Hnames|].
  intros Hin. rewrite Haddr in Hin.
  assert (Hall : Forall (fun o => kind o <> "interpolation")
            (flat_map (emitted self itype) pre
             ++ flat_map (emitted self itype) post)).
  { apply Forall_app. split; apply Forall_flat_map, Forall_forall;
      intros j _; apply emitted_not_interpolation. }
  rewrite Forall_forall in Hall. exact (Hall i Hin Hk).
Qed.

Lemma C4_interpolation_dropped_witness :
  filter_kind default_sanitizer "interpolation" = false /\
  __call__ default_sanitizer
    (record [item "street" "Main"; item "interpolation" "even";
             item "housenumber" "2-6"])
  = Ok (record [item "street" "Main"; item "housenumber" "2";
                item "housenumber" "4"; item "housenumber" "6"]) /\
  kind (item "interpolation" "even") = "interpolation" /\
  exists itype,
    discover_itype default_sanitizer
      [item "street" "Main"; item "interpolation" "even";
       item "housenumber" "2-6"] = Ok itype /\
    [item "street" "Main"; item "housenumber" "2"; item "housenumber" "4";
     item "housenumber" "6"]
    = flat_map (emitted default_sanitizer itype) [item "street" "Main"]
      ++ flat_map (emitted default_sanitizer itype) [item "housenumber" "2-6"].
Proof.
  split; [reflexivity|]. split; [vm_compute; reflexivity|].
  split; [reflexivity|].
  destruct (C4_interpolation_dropped default_sanitizer
              (record [item "street" "Main"; item "interpolation" "even";
                       item "housenumber" "2-6"])
              (record [item "street" "Main"; item "housenumber" "2";
                       item "housenumber" "4"; item "housenumber" "6"])
              [item "street" "Main"] [item "housenumber" "2-6"]
              (item "interpolation" "even"))
    as (itype & Hd & Ha & _);
    [reflexivity | vm_compute; reflexivity | reflexivity | reflexivity |].
  exists itype. split; [exact Hd | exact Ha].
Defined.

(** C5: when the transform returns, no item of the record's address has
    kind 'interpolation'. *)
Theorem C5_no_interpolation_left
  (self : HousenumberSanitizer) (obj obj' : ProcessInfo) :
  __call__ self obj = Ok obj' ->
  Forall (fun o => kind o <> "interpolation") (address obj').
Proof.
  intros H. destruct (call_returns self obj obj' H) as (itype & _ & -> & _).
  apply Forall_flat_map, Forall_forall. intros i _.
  apply emitted_not_interpolation.
Qed.

Lemma C5_no_interpolation_left_witness :
  __call__ interpolation_sanitizer
    (record [item "street" "Main"; item "interpolation" "odd";
             item "housenumber" "1-5"])
  = Ok (record [item "street" "Main"; item "housenumber" "odd";
                item "housenumber" "1"; item "housenumber" "3";
                item "housenumber" "5"]) /\
  Forall (fun o => kind o <> "interpolation")
    [item "street" "Main"; item "housenumber" "odd";
     item "housenumber" "1"; item "housenumber" "3"; item "housenumber" "5"].
Proof.
  split; [vm_compute; reflexivity|].
  apply (C5_no_interpolation_left interpolation_sanitizer
           (record [item "street" "Main"; item "interpolation" "odd";
                    item "housenumber" "1-5"])
           (record [item "street" "Main"; item "housenumber" "odd";
                    item "housenumber" "1"; item "housenumber" "3";
                    item "housenumber" "5"])).
  vm_compute. reflexivity.
Defined.

(** C6: when the transform returns, a housenumber candidate of the
    address that is not expanded as a range and whose value passes the
    name filter adds exactly one item to the names of the record: a copy
    of kind 'housenumber' with the candidate's value and other
    attributes, appended after the old names and after what the earlier
    items have added, and followed only by what the later items add.
    Nothing is added to the address for the candidate, and the old names
    keep their places at the front. *)
Theorem C6_name_appended
  (self : HousenumberSanitizer) (obj obj' : ProcessInfo)
  (itype : option itype_t) (pre post : list PlaceName) (i : PlaceName) :
  __call__ self obj = Ok obj' ->
  discover_itype self (address obj) = Ok itype ->
  address obj = pre ++ i :: post ->
  filter_kind self (kind i) = true ->
  not_expanded itype i ->
  filter_name self (name i) = true ->
  names obj'
  = names obj ++ flat_map (named self itype) pre
    ++ [{| name := name i; kind := "housenumber"; attrs := attrs i |}]
    ++ flat_map (named self itype) post /\
  address obj'
  = flat_map (emitted self itype) pre ++ flat_map (emitted self itype) post.
Proof.
  intros Hcall Hd Ea Hk He Hn.
  destruct (call_split self obj obj' pre post i Hcall Ea)
    as (itype' & Hd' & Haddr & Hnames & Hbody).
  rewrite Hd in Hd'. injection Hd' as <-.
  rewrite (loop_body_not_expanded self itype i ([], []) Hk He) in Hbody.
  unfold name_or_split in Hbody. rewrite Hn in Hbody.
  injection Hbody as Hem Hnm.
  rewrite <- Hem in Haddr. rewrite <- Hnm in Hnames.
  split; [exact Hnames | exact Haddr].
Qed.

Lemma C6_name_appended_witness :
  __call__ private_sanitizer
    {| address := [item "street" "Main"; item "housenumber" "private";
                   item "housenumber" "4"];
       names := [item "name" "Villa"] |}
  = Ok {| address := [item "street" "Main"; item "housenumber" "4"];
          names := [item "name" "Villa"; item "housenumber" "private"] |} /\
  discover_itype private_sanitizer
    [item "street" "Main"; item "housenumber" "private"; item "housenumber" "4"]
  = Ok None /\
  filter_kind private_sanitizer (kind (item "housenumber" "private")) = true /\
  not_expanded None (item "housenumber" "private") /\
  filter_name private_sanitizer (name (item "housenumber" "private")) = true /\
  [item "name" "Villa"; item "housenumber" "private"]
  = [item "name" "Villa"]
    ++ flat_map (named private_sanitizer None) [item "street" "Main"]
    ++ [{| name := "private"; kind := "housenumber"; attrs := [] |}]
    ++ flat_map (named private_sanitizer None) [item "housenumber" "4"].
Proof.
  split; [vm_compute; reflexivity|]. split; [reflexivity|].
  split; [reflexivity|]. split; [exact I|]. split; [reflexivity|].
  apply (C6_name_appended private_sanitizer
           {| address := [item "street" "Main"; item "housenumber" "private";
                          item "housenumber" "4"];
              names := [item "name" "Villa"] |}
           {| address := [item "street" "Main"; item "housenumber" "4"];
              names := [item "name" "Villa"; item "housenumber" "private"] |}
           None [item "street" "Main"] [item "housenumber" "4"]
           (item "housenumber" "private"));
    [vm_compute; reflexivity | reflexivity | reflexivity | reflexivity
    | exact I | reflexivity].
Defined.

(** C7: when the transform returns, the new address is the old one with
    every item replaced, in place, by what its iteration emitted: an item
    that passes through is replaced by itself, an item handled as a
    housenumber candidate by its copies of kind 'housenumber', and any
    other item (an interpolation item) by nothing.  So the items that pass
    through keep their relative order, and the items emitted for a
    candidate stand where the candidate stood. *)
Theorem C7_order_preserved
  (self : HousenumberSanitizer) (obj obj' : ProcessInfo) :
  __call__ self obj = Ok obj' ->
  exists itype,
    discover_itype self (address obj) = Ok itype /\
    address obj' = flat_map (emitted self itype) (address obj) /\
    (forall pre i post, address obj = pre ++ i :: post ->
       address obj' = flat_map (emitted self itype) pre
                      ++ emitted self itype i
                      ++ flat_map (emitted self itype) post) /\
    (forall i, passes_through self i = true -> emitted self itype i = [i]) /\
    (forall i, filter_kind self (kind i) = true ->
       Forall (fun o => kind o = "housenumber" /\ attrs o = attrs i)
              (emitted self itype i)) /\
    (forall i, filter_kind self (kind i) = false ->
       kind i = "interpolation" -> emitted self itype i = []).
Proof.
  intros H. destruct (call_returns self obj obj' H) as (itype & Hd & Ha & _).
  exists itype. split; [exact Hd|]. split; [exact Ha|]. repeat split.
  - intros pre i post E. rewrite Ha, E, flat_map_app. reflexivity.
  - intros i Hi. now apply emitted_passes_through.
  - intros i Hi. now apply emitted_housenumber.
  - intros i Hf Hk. unfold emitted, loop_body. rewrite Hf, Hk. reflexivity.
Qed.

Lemma C7_order_preserved_witness :
  __call__ default_sanitizer
    (record [item "street" "Main"; item "housenumber" "3;5";
             item "interpolation" "x"; item "city" "Bern"])
  = Ok (record [item "street" "Main"; item "housenumber" "3";
                item "housenumber" "5"; item "city" "Bern"]) /\
  exists itype,
    discover_itype default_sanitizer
      [item "street" "Main"; item "housenumber" "3;5";
       item "interpolation" "x"; item "city" "Bern"] = Ok itype /\
    [item "street" "Main"; item "housenumber" "3";
     item "housenumber" "5"; item "city" "Bern"]
    = flat_map (emitted default_sanitizer itype)
        [item "street" "Main"; item "housenumber" "3;5";
         item "interpolation" "x"; item "city" "Bern"].
Proof.
  split; [vm_compute; reflexivity|].
  destruct (C7_order_preserved default_sanitizer
              (record [item "street" "Main"; item "housenumber" "3;5";
                       item "interpolation" "x"; item "city" "Bern"])
              (record [item "street" "Main"; item "housenumber" "3";
                       item "housenumber" "5"; item "city" "Bern"]))
    as (itype & Hd & Ha & _); [vm_compute; reflexivity|].
  exists itype. split; [exact Hd | exact Ha].
Defined.

(** C8: on a record that is already regular (no interpolation item, every
    housenumber candidate with a value that is no range, is not turned
    into a name and is a single token) the transform returns, and a second
    application to its result returns that result unchanged, address and
    names alike. *)
Theorem C8_idempotent_on_regular
  (self : HousenumberSanitizer) (obj : ProcessInfo) :
  regular self obj ->
  exists obj1, __call__ self obj = Ok obj1 /\ __call__ self obj1 = Ok obj1.
Proof.
  intros H. eexists. split; [apply (call_regular self obj H)|].
  rewrite call_regular.
  - cbn [address names]. rewrite map_map. f_equal. f_equal.
    apply map_ext. intros i. apply as_housenumber_idempotent.
  - unfold regular in *. cbn [address]. apply Forall_map.
    eapply Forall_impl; [|exact H]. intros i. apply as_housenumber_regular.
Qed.

Lemma C8_idempotent_on_regular_witness :
  regular default_sanitizer
    (record [item "street" "Main"; item "housenumber" "12a"]) /\
  exists obj1,
    __call__ default_sanitizer
      (record [item "street" "Main"; item "housenumber" "12a"]) = Ok obj1 /\
    __call__ default_sanitizer obj1 = Ok obj1.
Proof.
  assert (Hr : regular default_sanitizer
                 (record [item "street" "Main"; item "housenumber" "12a"])).
  { repeat constructor; try discriminate; reflexivity. }
  split; [exact Hr|].
  exact (C8_idempotent_on_regular default_sanitizer
           (record [item "street" "Main"; item "housenumber" "12a"]) Hr).
Defined.

(** C9: a descending range is claimed to fall through to the name and
    splitting steps for every value that matches the range pattern.  For
    the range from 10^309 down to 0 and the token 'all' the quotient of
    line 110 has no float value: the call raises [OverflowError]. *)
Theorem C9_huge_descending_raises :
  RANGE_REGEX_fullmatch huge_descending = true /\
  parse_endpoints huge_descending = Ok (10 ^ 309, 0) /\
  _expand_range (IInt 1) huge_descending = Raise OverflowError /\
  __call__ default_sanitizer
    (record [item "interpolation" "all"; item "housenumber" huge_descending])
  = Raise OverflowError.
Proof. repeat split; vm_compute; reflexivity. Qed.

(** C10: when the transform returns and the expansion of a housenumber
    candidate of the address has returned at least one number, the
    candidate is replaced, at its place in the address, by one item per
    number whose value is the number's canonical decimal numeral: decimal
    characters only, no leading zero, and read back by [int] as the same
    number.  The transform turns '008-010' under 'all' into '8', '9',
    '10': the zeros that lead the endpoints are gone, and '9' does not
    occur in '008-010'. *)
Theorem C10_expanded_values_canonical
  (self : HousenumberSanitizer) (obj obj' : ProcessInfo) (it : itype_t)
  (pre post : list PlaceName) (i : PlaceName) (hnrs : list Z) :
  __call__ self obj = Ok obj' ->
  discover_itype self (address obj) = Ok (Some it) ->
  address obj = pre ++ i :: post ->
  filter_kind self (kind i) = true ->
  RANGE_REGEX_fullmatch (name i) = true ->
  _expand_range it (name i) = Ok hnrs ->
  hnrs <> [] ->
  (exists values,
     Forall2 (fun n v => Py.str n = Ok v /\ canonical_decimal v /\
                         Py.int v = Ok n) hnrs values /\
     address obj'
     = flat_map (emitted self (Some it)) pre
       ++ map (fun v => {| name := v; kind := "housenumber";
                           attrs := attrs i |}) values
       ++ flat_map (emitted self (Some it)) post) /\
  __call__ default_sanitizer
    (record [item "interpolation" "all"; item "housenumber" "008-010"])
  = Ok (record [item "housenumber" "8"; item "housenumber" "9";
                item "housenumber" "10"]) /\
  String.index 0 "9" "008-010" = None.
Proof.
  intros Hcall Hd Ea Hk Hm He Hne. split; [|split].
  - destruct (call_split self obj obj' pre post i Hcall Ea)
      as (itype & Hd' & Haddr & _ & Hbody).
    rewrite Hd in Hd'. injection Hd' as <-.
    destruct (loop_body_candidate self it i _ _ Hk Hm Hbody)
      as (hnrs' & He' & Hcases).
    rewrite He in He'. injection He' as <-.
    destruct Hcases as [[Hnone _] | (_ & _ & values & Hv & Hem)];
      [contradiction|].
    exists values. split; [|now rewrite Haddr, Hem].
    pose proof (expand_range_nonneg it (name i) hnrs Hm He) as Hpos.
    apply map_result_ok in Hv. clear - Hv Hpos.
    induction Hv as [|n v ns vs Hnv _ IH]; constructor.
    + inversion Hpos; subst.
      split; [exact Hnv|].
      split; [now apply (str_canonical n) | now apply int_str].
    + apply IH. now inversion Hpos.
  - vm_compute. reflexivity.
  - reflexivity.
Qed.

Lemma C10_expanded_values_canonical_witness :
  __call__ default_sanitizer
    (record [item "interpolation" "all"; item "housenumber" "008-010"])
  = Ok (record [item "housenumber" "8"; item "housenumber" "9";
                item "housenumber" "10"]) /\
  discover_itype default_sanitizer
    [item "interpolation" "all"; item "housenumber" "008-010"]
  = Ok (Some (IInt 1)) /\
  filter_kind default_sanitizer (kind (item "housenumber" "008-010")) = true /\
  RANGE_REGEX_fullmatch (name (item "housenumber" "008-010")) = true /\
  _expand_range (IInt 1) (name (item "housenumber" "008-010")) = Ok [8; 9; 10] /\
  [8; 9; 10] <> [] /\
  exists values,
    Forall2 (fun n v => Py.str n = Ok v /\ canonical_decimal v /\
                        Py.int v = Ok n) [8; 9; 10] values /\
    [item "housenumber" "8"; item "housenumber" "9"; item "housenumber" "10"]
    = flat_map (emitted default_sanitizer (Some (IInt 1)))
        [item "interpolation" "all"]
      ++ map (fun v => {| name := v; kind := "housenumber"; attrs := [] |})
             values
      ++ flat_map (emitted default_sanitizer (Some (IInt 1))) [].
Proof.
  split; [vm_compute; reflexivity|]. split; [reflexivity|].
  split; [reflexivity|]. split; [reflexivity|].
  split; [vm_compute; reflexivity|]. split; [discriminate|].
  apply (proj1 (C10_expanded_values_canonical default_sanitizer
           (record [item "interpolation" "all"; item "housenumber" "008-010"])
           (record [item "housenumber" "8"; item "housenumber" "9";
                    item "housenumber" "10"])
           (IInt 1) [item "interpolation" "all"] []
           (item "housenumber" "008-010") [8; 9; 10]
           ltac:(vm_compute; reflexivity) eq_refl eq_refl eq_refl eq_refl
           ltac:(vm_compute; reflexivity) ltac:(discriminate))).
Defined.

(** ** Further properties of the sanitizer

    Properties read off the code beyond the ones above: which exceptions
    [__call__] can raise and when it returns, what [_expand_range]
    returns, and where the items of the result come from.  As everywhere
    in this file the strings are made of code points up to U+00FF. *)

Section RaiseFacts.

Variable self : HousenumberSanitizer.

Lemma safe_length_finite (it : itype_t) (s : string) (first last : Z) :
  RANGE_REGEX_fullmatch s = true ->
  parse_endpoints s = Ok (first, last) ->
  (String.length s <= safe_length)%nat ->
  0 < step_of it ->
  quotient_finite (last + 1 - adjust_first it first) (step_of it).
Proof.
  intros Hm Hp Hlen Hs.
  destruct (parse_endpoints_bound s first last Hm Hp) as [[Hf Hl] _].
  pose proof (adjust_first_bounds it first) as Ha.
  assert (Hpow : 10 ^ Z.of_nat (String.length s) <= 10 ^ 308)
    by (apply Z.pow_le_mono_r; unfold safe_length in Hlen; lia).
  assert (Hov : 10 ^ 308 < Py.float_overflow) by (vm_compute; reflexivity).
  split; [lia|].
  assert (Py.float_overflow <= Py.float_overflow * Z.abs (step_of it)) by nia.
  lia.
Qed.

Lemma safe_length_short (s : string) :
  RANGE_REGEX_fullmatch s = true ->
  (String.length s <= safe_length)%nat -> long_endpoint s = false.
Proof.
  intros Hm Hlen. apply short_not_long_endpoint; [exact Hm|].
  assert (safe_length <= Py.max_str_digits)%nat
    by (apply Nat.leb_le; vm_compute; reflexivity).
  lia.
Qed.

Lemma truediv_lt_10_raise (a b : Z) (e : exn) :
  Py.truediv_lt_10 a b = Raise e ->
  (b = 0 /\ e = ZeroDivisionError) \/
  (b <> 0 /\ e = OverflowError /\ Py.float_overflow * Z.abs b <= Z.abs a).
Proof.
  unfold Py.truediv_lt_10. destruct (Z.eqb_spec b 0) as [Hb|Hb].
  - intros [= <-]. now left.
  - destruct (Z.leb_spec (Py.float_overflow * Z.abs b) (Z.abs a));
      [|discriminate].
    intros [= <-]. right. auto.
Qed.

(** [_expand_range] raises through the conversions of line 100, when an
    endpoint is too long, or through the division of line 110. *)
Lemma expand_range_raise (it : itype_t) (hnr : string) (e : exn) :
  RANGE_REGEX_fullmatch hnr = true ->
  _expand_range it hnr = Raise e ->
  (e = ValueError /\ long_endpoint hnr = true) \/
  (long_endpoint hnr = false /\
   exists first last,
     parse_endpoints hnr = Ok (first, last) /\
     Py.truediv_lt_10 (last + 1 - adjust_first it first) (step_of it)
     = Raise e).
Proof.
  intros Hm. unfold _expand_range.
  destruct (parse_endpoints hnr) as [[first last]|e'] eqn:Hp; cbn [Py.bind].
  - destruct (long_endpoint hnr) eqn:Hl.
    { rewrite (parse_endpoints_long hnr Hm Hl) in Hp. discriminate. }
    destruct (Py.truediv_lt_10 _ _) as [small|e'] eqn:Ed; cbn [Py.bind].
    + apply truediv_lt_10_ok in Ed as [[Hnz _] _].
      destruct small; [|discriminate].
      unfold Py.range. destruct (Z.eqb_spec (step_of it) 0); [contradiction|].
      discriminate.
    + intros [= <-]. right. split; [reflexivity|]. eauto.
  - intros [= <-]. left. now apply parse_endpoints_raise.
Qed.

(** The numbers that [_expand_range] returns for a step that is not
    negative are all converted by [str]. *)
Lemma expansion_converts (it : itype_t) (hnr : string) (hnrs : list Z) :
  RANGE_REGEX_fullmatch hnr = true ->
  0 <= step_of it ->
  _expand_range it hnr = Ok hnrs ->
  exists values, Py.map_result Py.str hnrs = Ok values.
Proof.
  intros Hm Hs He. apply map_result_returns.
  pose proof (expand_range_nonneg it hnr hnrs Hm He) as Hpos.
  destruct (expand_range_inv it hnr hnrs He)
    as (first & last & small & Hp & Hdiv & Hsmall).
  destruct (parse_endpoints_bound hnr first last Hm Hp) as (_ & _ & Hl).
  apply truediv_lt_10_ok in Hdiv as [[Hnz _] _].
  destruct small; [|subst hnrs; constructor].
  assert (Hs' : 0 < step_of it) by lia.
  destruct (range_ascending (adjust_first it first) (step_of it) Hs' last)
    as (l & Hr & [_ Hin] & _).
  rewrite Hr in Hsmall. injection Hsmall as ->.
  rewrite Forall_forall in Hpos. apply Forall_forall. intros x Hx.
  apply str_returns. specialize (Hpos x Hx).
  apply Hin in Hx as (k & _ & _ & Hle). lia.
Qed.

(** An iteration raises only for a range candidate under an
    interpolation type. *)
Lemma loop_body_raise_candidate (itype : option itype_t) (i : PlaceName)
  (st : loop_state) (e : exn) :
  loop_body self itype i st = Raise e ->
  range_candidate self i = true /\ exists it, itype = Some it.
Proof.
  unfold loop_body, range_candidate.
  destruct (filter_kind self (kind i)); cbn [andb].
  - destruct itype as [it|]; [|discriminate].
    destruct (RANGE_REGEX_fullmatch (name i)); [|discriminate]. eauto.
  - destruct (negb _); discriminate.
Qed.

Lemma loop_body_raise (it : itype_t) (i : PlaceName)
  (st : loop_state) (e : exn) :
  0 <= step_of it ->
  loop_body self (Some it) i st = Raise e ->
  range_candidate self i = true /\ _expand_range it (name i) = Raise e.
Proof.
  intros Hs H. pose proof (loop_body_raise_candidate _ _ _ _ H) as [Hc _].
  split; [exact Hc|].
  unfold range_candidate in Hc. apply andb_true_iff in Hc as [Hk Hm].
  unfold loop_body in H. rewrite Hk, Hm in H.
  destruct (_expand_range it (name i)) as [[|h l]|e'] eqn:E;
    cbn [Py.bind] in H; [discriminate| |now injection H as ->].
  destruct (expansion_converts it (name i) (h :: l) Hm Hs E) as [values Hv].
  rewrite Hv in H. discriminate H.
Qed.

Lemma loop_raise (itype : option itype_t) (items : list PlaceName)
  (st : loop_state) (e : exn) :
  loop self itype items st = Raise e ->
  exists i st', In i items /\ loop_body self itype i st' = Raise e.
Proof.
  revert st. induction items as [|i rest IH]; intros st; cbn; [discriminate|].
  destruct (loop_body self itype i st) as [st1|e'] eqn:E; cbn [Py.bind].
  - intros H. destruct (IH st1 H) as (j & st' & Hj & Hb).
    exists j, st'. auto.
  - intros [= <-]. exists i, st. auto.
Qed.

(** An iteration on an item that is no range candidate returns. *)
Lemma loop_body_returns (itype : option itype_t) (i : PlaceName)
  (st : loop_state) :
  range_candidate self i = false -> exists st', loop_body self itype i st = Ok st'.
Proof.
  intros Hc. destruct (loop_body self itype i st) as [st'|e] eqn:E; [eauto|].
  apply loop_body_raise_candidate in E as [Ht _]. congruence.
Qed.

(** With step 0 an iteration on a range candidate raises: in the division
    when the endpoints parse, in the conversion when one is too long. *)
Lemma loop_body_zero_step (i : PlaceName) (st : loop_state) :
  range_candidate self i = true ->
  loop_body self (Some (IInt 0)) i st
  = Raise (if long_endpoint (name i) then ValueError else ZeroDivisionError).
Proof.
  unfold range_candidate. intros H. apply andb_true_iff in H as [Hk Hm].
  unfold loop_body, _expand_range. rewrite Hk, Hm.
  destruct (long_endpoint (name i)) eqn:Hl.
  - now rewrite (parse_endpoints_long (name i) Hm Hl).
  - destruct (parse_endpoints_fullmatch (name i) Hm Hl) as (f & l & -> & _).
    reflexivity.
Qed.

Lemma loop_zero_step (items : list PlaceName) (st : loop_state) :
  (exists i, In i items /\ range_candidate self i = true) ->
  exists e,
    loop self (Some (IInt 0)) items st = Raise e /\
    (e = ZeroDivisionError \/ e = ValueError) /\
    ((forall i, In i items -> range_candidate self i = true ->
                long_endpoint (name i) = false) ->
     e = ZeroDivisionError).
Proof.
  revert st. induction items as [|j rest IH]; intros st (i & Hi & Hc).
  - destruct Hi.
  - cbn [loop]. destruct (range_candidate self j) eqn:Ej.
    + rewrite (loop_body_zero_step j st Ej). cbn [Py.bind].
      eexists. split; [reflexivity|]. split.
      * destruct (long_endpoint (name j)); auto.
      * intros Hall. now rewrite (Hall j (or_introl eq_refl) Ej).
    + destruct (loop_body_returns (Some (IInt 0)) j st Ej) as [st' ->].
      cbn [Py.bind].
      destruct Hi as [-> | Hi]; [congruence|].
      destruct (IH st' (ex_intro _ i (conj Hi Hc))) as (e & He & Hor & Hz).
      exists e. split; [exact He|]. split; [exact Hor|].
      intros Hall. apply Hz. intros k Hk. apply Hall. now right.
Qed.

End RaiseFacts.

(** *** Which exceptions the transform raises *)

(** Where an exception of [__call__] comes from: the token of the first
    interpolation item, or the conversion of line 100 or the division of
    line 110 for a range candidate. *)
Lemma call_raise_inversion
  (self : HousenumberSanitizer) (obj : ProcessInfo) (e : exn) :
  __call__ self obj = Raise e ->
  expand_interpolations self = true /\
  exists t,
    first_interpolation (address obj) = Some t /\
    ((e = ValueError /\ superscript_token t) \/
     (e = ValueError /\
      exists i, In i (address obj) /\ range_candidate self i = true /\
                long_endpoint (name i) = true) \/
     (e = ZeroDivisionError /\ t = "0" /\
      exists i, In i (address obj) /\ range_candidate self i = true) \/
     (e = OverflowError /\
      exists i, In i (address obj) /\ range_candidate self i = true /\
                (safe_length < String.length (name i))%nat)).
Proof.
  unfold __call__. destruct (address obj) as [|a rest] eqn:Ea; [discriminate|].
  rewrite <- Ea. clear Ea a rest.
  destruct (discover_itype self (address obj)) as [itype|e'] eqn:Ed;
    cbn [Py.bind].
  - destruct (loop self itype (address obj) ([], names obj)) as [st|e'] eqn:El;
      cbn [Py.bind]; [discriminate|].
    intros [= <-].
    apply loop_raise in El as (i & st' & Hi & Hb).
    pose proof (loop_body_raise_candidate self _ _ _ _ Hb) as (_ & it & ->).
    apply discover_itype_some in Ed as (Hx & t & Ht & Hr).
    apply resolve_itype_resolved in Hr as [Hres Hzero].
    pose proof (resolved_step it Hres) as Hstep.
    apply loop_body_raise in Hb as [Hc He]; [|lia].
    split; [exact Hx|]. exists t. split; [exact Ht|]. right.
    pose proof Hc as Hc'. unfold range_candidate in Hc'.
    apply andb_true_iff in Hc' as [_ Hm].
    apply (expand_range_raise it (name i) e' Hm) in He
      as [[-> Hlong] | (Hshort & f & l & Hp & Hdiv)].
    { left. split; [reflexivity|]. eauto. }
    right.
    apply truediv_lt_10_raise in Hdiv as [[Hz ->] | (Hnz & -> & Hov)].
    + left. split; [reflexivity|]. split; [now apply Hzero | eauto].
    + right. split; [reflexivity|]. exists i. split; [exact Hi|].
      split; [exact Hc|].
      destruct (Nat.lt_ge_cases safe_length (String.length (name i)))
        as [|Hle]; [assumption|]. exfalso.
      assert (Hs : 0 < step_of it) by lia.
      destruct (safe_length_finite it (name i) f l Hm Hp Hle Hs) as [_ Hfin].
      lia.
  - intros [= <-]. apply discover_itype_raise in Ed as (Hx & t & Ht & Hr).
    apply resolve_itype_raise in Hr as [-> Hsup].
    split; [exact Hx|]. exists t. split; [exact Ht|]. now left.
Qed.

(** X1: for strings of code points up to U+00FF, the transform raises in
    four situations only, all of them with expansion enabled and an
    interpolation item present.  [ValueError]: the token of the first
    interpolation item is one character that [isdigit] accepts and [int]
    rejects; or some housenumber candidate matches the range pattern with
    an endpoint of more than 4300 digits.  [ZeroDivisionError]: the token
    is '0' and some housenumber candidate matches the range pattern.
    [OverflowError]: some housenumber candidate matches the range pattern
    with a value of more than 308 characters.  In particular no exception
    is raised with expansion disabled or without interpolation item. *)
Theorem X1_raise_cases
  (self : HousenumberSanitizer) (obj : ProcessInfo) (e : exn) :
  __call__ self obj = Raise e ->
  (expand_interpolations self = true /\
   exists t,
     first_interpolation (address obj) = Some t /\
     ((e = ValueError /\ superscript_token t) \/
      (e = ValueError /\
       exists i, In i (address obj) /\ range_candidate self i = true /\
                 long_endpoint (name i) = true) \/
      (e = ZeroDivisionError /\ t = "0" /\
       exists i, In i (address obj) /\ range_candidate self i = true) \/
      (e = OverflowError /\
       exists i, In i (address obj) /\ range_candidate self i = true /\
                 (safe_length < String.length (name i))%nat))) /\
  exists i, In i (address obj) /\ kind i = "interpolation".
Proof.
  intros H. apply call_raise_inversion in H as (Hx & t & Ht & Hcases).
  split; [eauto|].
  unfold first_interpolation in Ht.
  destruct (find (fun i => (kind i =? "interpolation")%string) (address obj))
    as [i|] eqn:Ef; [|discriminate].
  apply find_some in Ef as [Hin Hk]. apply String.eqb_eq in Hk. eauto.
Qed.

Lemma X1_raise_cases_witness :
  __call__ default_sanitizer
    (record [item "interpolation" "all"; item "housenumber" long_range])
  = Raise ValueError /\
  exists i,
    In i [item "interpolation" "all"; item "housenumber" long_range] /\
    kind i = "interpolation".
Proof.
  split; [vm_compute; reflexivity|].
  apply (proj2 (X1_raise_cases default_sanitizer
           (record [item "interpolation" "all";
                    item "housenumber" long_range]) ValueError
           ltac:(vm_compute; reflexivity))).
Defined.

(** X2: for strings of code points up to U+00FF, the transform returns
    whenever the token of the first interpolation item, if there is one,
    is not '0' and is not a single character outside the ASCII range,
    and every housenumber candidate that matches the range pattern has a
    value of at most 308 characters. *)
Theorem X2_returns_on_safe_input
  (self : HousenumberSanitizer) (obj : ProcessInfo) :
  (forall t, first_interpolation (address obj) = Some t -> safe_token t) ->
  (forall i, In i (address obj) -> range_candidate self i = true ->
             (String.length (name i) <= safe_length)%nat) ->
  exists obj', __call__ self obj = Ok obj'.
Proof.
  intros Htok Hlen.
  destruct (__call__ self obj) as [obj'|e] eqn:E; [eauto|]. exfalso.
  apply call_raise_inversion in E as (_ & t & Ht & Hcases).
  destruct (Htok t Ht) as [Hz Hs].
  destruct Hcases as [[_ (c & -> & Hd & Hn)]
                     | [(_ & i & Hi & Hc & Hl)
                     | [(_ & -> & _) | (_ & i & Hi & Hc & Hl)]]].
  - specialize (Hs c eq_refl). unfold Py.isdigit_char in Hd.
    rewrite Hn in Hd. cbn [orb] in Hd.
    repeat (apply orb_true_iff in Hd as [Hd | Hd]);
      apply Nat.eqb_eq in Hd; rewrite Hd in Hs;
      apply Nat.ltb_lt in Hs; vm_compute in Hs; discriminate Hs.
  - specialize (Hlen i Hi Hc). pose proof Hc as Hc'.
    unfold range_candidate in Hc'. apply andb_true_iff in Hc' as [_ Hm].
    rewrite (safe_length_short (name i) Hm Hlen) in Hl. discriminate.
  - congruence.
  - specialize (Hlen i Hi Hc). lia.
Qed.

Lemma X2_returns_on_safe_input_witness :
  (forall t, first_interpolation
               [item "interpolation" "even"; item "housenumber" "11-16"]
             = Some t -> safe_token t) /\
  (forall i, In i [item "interpolation" "even"; item "housenumber" "11-16"] ->
             range_candidate default_sanitizer i = true ->
             (String.length (name i) <= safe_length)%nat) /\
  exists obj',
    __call__ default_sanitizer
      (record [item "interpolation" "even"; item "housenumber" "11-16"])
    = Ok obj'.
Proof.
  assert (H1 : forall t, first_interpolation
                 [item "interpolation" "even"; item "housenumber" "11-16"]
               = Some t -> safe_token t).
  { intros t [= <-]. split; [discriminate|]. intros c Hc. discriminate Hc. }
  assert (H2 : forall i,
             In i [item "interpolation" "even"; item "housenumber" "11-16"] ->
             range_candidate default_sanitizer i = true ->
             (String.length (name i) <= safe_length)%nat).
  { intros i [<- | [<- | []]] _; apply Nat.leb_le; reflexivity. }
  split; [exact H1|]. split; [exact H2|].
  exact (X2_returns_on_safe_input default_sanitizer
           (record [item "interpolation" "even"; item "housenumber" "11-16"])
           H1 H2).
Defined.

(** X3: with expansion enabled and '0' as the token of the first
    interpolation item, the transform returns when no housenumber
    candidate matches the range pattern and raises as soon as one does,
    wherever it stands: [ZeroDivisionError] when the endpoints of the
    range candidates have at most 4300 digits, and otherwise
    [ZeroDivisionError] or the [ValueError] of the conversion. *)
Theorem X3_zero_token
  (self : HousenumberSanitizer) (obj : ProcessInfo) :
  expand_interpolations self = true ->
  first_interpolation (address obj) = Some "0" ->
  ((exists i, In i (address obj) /\ range_candidate self i = true) ->
   exists e,
     __call__ self obj = Raise e /\
     (e = ZeroDivisionError \/ e = ValueError) /\
     ((forall i, In i (address obj) -> range_candidate self i = true ->
                 long_endpoint (name i) = false) ->
      e = ZeroDivisionError)) /\
  ((forall i, In i (address obj) -> range_candidate self i = false) ->
   exists obj', __call__ self obj = Ok obj').
Proof.
  intros Hx Ht. split.
  - intros Hex. unfold __call__.
    destruct (address obj) as [|a rest] eqn:Ea.
    + destruct Hex as (i & [] & _).
    + rewrite <- Ea in *. unfold discover_itype. rewrite Hx, Ht.
      change (resolve_itype "0") with (Ok (Some (IInt 0))). cbn [Py.bind].
      destruct (loop_zero_step self (address obj) ([], names obj) Hex)
        as (e & -> & Hor & Hz).
      exists e. cbn [Py.bind]. auto.
  - intros Hnone. destruct (__call__ self obj) as [obj'|e] eqn:E; [eauto|].
    exfalso. apply call_raise_inversion in E as (_ & t & Ht' & Hcases).
    rewrite Ht in Ht'. injection Ht' as <-.
    destruct Hcases as [[_ (c & Hc & Hd & Hn)]
                       | [(_ & i & Hi & Hc & _)
                       | [(_ & _ & i & Hi & Hc) | (_ & i & Hi & Hc & _)]]].
    + injection Hc as <-. discriminate Hn.
    + rewrite (Hnone i Hi) in Hc. discriminate.
    + rewrite (Hnone i Hi) in Hc. discriminate.
    + rewrite (Hnone i Hi) in Hc. discriminate.
Qed.

Lemma X3_zero_token_witness :
  expand_interpolations default_sanitizer = true /\
  first_interpolation
    [item "housenumber" "7"; item "housenumber" "1-2"; item "interpolation" "0"]
  = Some "0" /\
  exists e,
    __call__ default_sanitizer
      (record [item "housenumber" "7"; item "housenumber" "1-2";
               item "interpolation" "0"])
    = Raise e /\
    (e = ZeroDivisionError \/ e = ValueError).
Proof.
  split; [reflexivity|]. split; [reflexivity|].
  destruct (proj1 (X3_zero_token default_sanitizer
              (record [item "housenumber" "7"; item "housenumber" "1-2";
                       item "interpolation" "0"]) eq_refl eq_refl))
    as (e & He & Hor & _).
  - exists (item "housenumber" "1-2"). split; [right; left; reflexivity|].
    reflexivity.
  - exists e. split; [exact He | exact Hor].
Defined.

(** *** What [_expand_range] returns *)

Section ExpansionResults.

Lemma range_listing (start stop step : Z) (l : list Z) :
  Py.range start stop step = Ok l ->
  l = map (fun i => start + Z.of_nat i * step)
          (seq 0 (Z.to_nat (Py.range_length start stop step))).
Proof.
  unfold Py.range. destruct (step =? 0); [discriminate|]. now intros [= <-].
Qed.

(** When [_expand_range] returns numbers, the division returned [True]
    and the numbers are the listed range. *)
Lemma expand_range_ok (it : itype_t) (hnr : string) (first last : Z)
  (hnrs : list Z) :
  parse_endpoints hnr = Ok (first, last) ->
  0 < step_of it ->
  _expand_range it hnr = Ok hnrs ->
  hnrs = [] \/
  (last + 1 - adjust_first it first < 10 * step_of it /\
   Py.range (adjust_first it first) (last + 1) (step_of it) = Ok hnrs).
Proof.
  intros Hp Hs He.
  destruct (expand_range_inv it hnr hnrs He)
    as (f & l & small & Hp' & Hdiv & Hsmall).
  rewrite Hp in Hp'. injection Hp' as <- <-.
  destruct small; [|now left]. right.
  split; [exact (truediv_lt_10_true _ _ Hs Hdiv) | exact Hsmall].
Qed.

Lemma adjust_first_even (first : Z) :
  Z.even (adjust_first (IStr "even") first) = true.
Proof.
  cbn. rewrite mod2_odd, orb_false_r.
  destruct (Z.odd first) eqn:Ho.
  - rewrite Z.add_1_r, Z.even_succ. exact Ho.
  - rewrite <- Z.negb_odd, Ho. reflexivity.
Qed.

Lemma adjust_first_odd (first : Z) :
  Z.odd (adjust_first (IStr "odd") first) = true.
Proof.
  cbn. rewrite mod2_even.
  destruct (Z.even first) eqn:He.
  - rewrite Z.add_1_r, Z.odd_succ. exact He.
  - rewrite <- Z.negb_even, He. reflexivity.
Qed.

End ExpansionResults.

(** X4: for an interpolation type with a positive step, a returning
    [_expand_range] lists at most ten numbers (at most nine for step 1),
    each of them between the first endpoint, adjusted for parity, and the
    last endpoint. *)
Theorem X4_expansion_bounded
  (it : itype_t) (hnr : string) (first last : Z) (hnrs : list Z) :
  parse_endpoints hnr = Ok (first, last) ->
  0 < step_of it ->
  _expand_range it hnr = Ok hnrs ->
  (List.length hnrs <= 10)%nat /\
  (step_of it = 1 -> (List.length hnrs <= 9)%nat) /\
  Forall (fun x => adjust_first it first <= x <= last) hnrs.
Proof.
  intros Hp Hs He.
  destruct (expand_range_ok it hnr first last hnrs Hp Hs He)
    as [-> | [Hsmall Hr]].
  { cbn. repeat split; try lia. constructor. }
  set (f := adjust_first it first) in *. set (step := step_of it) in *.
  assert (Hlen : Py.range_length f (last + 1) step <= 10 /\
                 (step = 1 -> Py.range_length f (last + 1) step <= 9)).
  { unfold Py.range_length. destruct (Z.ltb_spec 0 step); [|lia].
    destruct (Z.ltb_spec f (last + 1)); [|lia].
    assert ((last + 1 - f - 1) / step < 10)
      by (apply Z.div_lt_upper_bound; lia).
    split; [lia|]. intros ->. rewrite Z.div_1_r. lia. }
  pose proof (range_listing _ _ _ _ Hr) as El.
  assert (Hl : List.length hnrs
               = Z.to_nat (Py.range_length f (last + 1) step))
    by (rewrite El, length_map, length_seq; reflexivity).
  split; [lia|]. split; [intros H1; apply Hlen in H1; lia|].
  destruct (range_ascending f step Hs last) as (l & Hr' & [_ Hin] & _).
  rewrite Hr in Hr'. injection Hr' as <-.
  apply Forall_forall. intros x Hx.
  apply Hin in Hx as (k & Hk & -> & Hle). nia.
Qed.

Lemma X4_expansion_bounded_witness :
  parse_endpoints "2-20" = Ok (2, 20) /\
  0 < step_of (IStr "even") /\
  _expand_range (IStr "even") "2-20" = Ok [2; 4; 6; 8; 10; 12; 14; 16; 18; 20] /\
  (List.length [2; 4; 6; 8; 10; 12; 14; 16; 18; 20] <= 10)%nat /\
  (step_of (IStr "even") = 1 ->
   (List.length [2; 4; 6; 8; 10; 12; 14; 16; 18; 20] <= 9)%nat) /\
  Forall (fun x => adjust_first (IStr "even") 2 <= x <= 20)
         [2; 4; 6; 8; 10; 12; 14; 16; 18; 20].
Proof.
  split; [reflexivity|]. split; [reflexivity|].
  split; [vm_compute; reflexivity|].
  apply (X4_expansion_bounded (IStr "even") "2-20" 2 20
           [2; 4; 6; 8; 10; 12; 14; 16; 18; 20]);
    [reflexivity | reflexivity | vm_compute; reflexivity].
Defined.

(** X5: under 'even' every number that [_expand_range] returns is even,
    under 'odd' every number is odd, whatever the parity of the first
    endpoint. *)
Theorem X5_expansion_parity (s hnr : string) (hnrs : list Z) :
  _expand_range (IStr s) hnr = Ok hnrs ->
  (s = "even" -> Forall (fun x => Z.even x = true) hnrs) /\
  (s = "odd" -> Forall (fun x => Z.odd x = true) hnrs).
Proof.
  intros He.
  destruct (parse_endpoints hnr) as [[first last]|e] eqn:Hp.
  2:{ unfold _expand_range in He. rewrite Hp in He. discriminate He. }
  destruct (expand_range_ok (IStr s) hnr first last hnrs Hp eq_refl He)
    as [-> | [_ Hr]]; [split; constructor|].
  apply range_listing in Hr. cbn [step_of] in Hr.
  split; intros ->; rewrite Hr; apply Forall_forall; intros x Hx;
    apply in_map_iff in Hx as (k & <- & _); rewrite (Z.mul_comm _ 2).
  - rewrite Z.even_add_mul_2. apply adjust_first_even.
  - rewrite Z.odd_add_mul_2. apply adjust_first_odd.
Qed.

Lemma X5_expansion_parity_witness :
  _expand_range (IStr "odd") "4-9" = Ok [5; 7; 9] /\
  ("odd" = "even" -> Forall (fun x => Z.even x = true) [5; 7; 9]) /\
  ("odd" = "odd" -> Forall (fun x => Z.odd x = true) [5; 7; 9]).
Proof.
  split; [vm_compute; reflexivity|].
  apply (X5_expansion_parity "odd" "4-9" [5; 7; 9]).
  vm_compute. reflexivity.
Defined.

(** *** The interpolation type of a record *)

(** X6: whenever the discovery of lines 54 to 63 leaves an interpolation
    type, it is a step from 0 to 9, 'odd' or 'even': the step used by
    [_expand_range] is never negative and never above 9. *)
Theorem X6_itype_resolved
  (self : HousenumberSanitizer) (addr : list PlaceName) (it : itype_t) :
  discover_itype self addr = Ok (Some it) ->
  resolved it /\ 0 <= step_of it <= 9.
Proof.
  intros H. apply discover_itype_some in H as (_ & t & _ & Hr).
  apply resolve_itype_resolved in Hr as [Hres _]. split; [exact Hres|].
  destruct Hres as [(n & -> & Hn) | [-> | ->]]; cbn; lia.
Qed.

Lemma X6_itype_resolved_witness :
  discover_itype default_sanitizer
    [item "housenumber" "1-9"; item "interpolation" "3"] = Ok (Some (IInt 3)) /\
  resolved (IInt 3) /\ 0 <= step_of (IInt 3) <= 9.
Proof.
  split; [reflexivity|].
  apply (X6_itype_resolved default_sanitizer
           [item "housenumber" "1-9"; item "interpolation" "3"] (IInt 3)).
  reflexivity.
Defined.

(** X7: with expansion enabled the interpolation type is read from the
    first item of kind 'interpolation' alone: the items before it and
    every later interpolation item have no part in it, also when the
    first token is not recognised. *)
Theorem X7_first_interpolation_decides
  (self : HousenumberSanitizer) (pre post : list PlaceName) (i : PlaceName) :
  expand_interpolations self = true ->
  Forall (fun j => kind j <> "interpolation") pre ->
  kind i = "interpolation" ->
  discover_itype self (pre ++ i :: post) = resolve_itype (name i).
Proof.
  intros Hx Hpre Hk. unfold discover_itype. rewrite Hx.
  assert (E : first_interpolation (pre ++ i :: post) = Some (name i)).
  { unfold first_interpolation.
    induction Hpre as [|j pre Hj _ IH]; cbn.
    - rewrite Hk. reflexivity.
    - destruct (String.eqb_spec (kind j) "interpolation"); [contradiction|].
      exact IH. }
  now rewrite E.
Qed.

Lemma X7_first_interpolation_decides_witness :
  expand_interpolations default_sanitizer = true /\
  Forall (fun j => kind j <> "interpolation") [item "housenumber" "1-5"] /\
  kind (item "interpolation" "yes") = "interpolation" /\
  discover_itype default_sanitizer
    ([item "housenumber" "1-5"]
     ++ item "interpolation" "yes" :: [item "interpolation" "odd"])
  = Ok None.
Proof.
  assert (Hpre : Forall (fun j => kind j <> "interpolation")
                   [item "housenumber" "1-5"])
    by (repeat constructor; discriminate).
  split; [reflexivity|]. split; [exact Hpre|]. split; [reflexivity|].
  exact (X7_first_interpolation_decides default_sanitizer
           [item "housenumber" "1-5"] [item "interpolation" "odd"]
           (item "interpolation" "yes") eq_refl Hpre eq_refl).
Defined.

(** *** What the transform puts into the record *)

Section OutputFacts.

Variable self : HousenumberSanitizer.
Variable itype : option itype_t.

Lemma Forall2_in_r {A B : Type} (R : A -> B -> Prop) (l : list A)
  (l' : list B) (y : B) :
  Forall2 R l l' -> In y l' -> exists x, R x y.
Proof.
  induction 1 as [|a b l l' Hab _ IH]; intros Hy; [destruct Hy|].
  destruct Hy as [<- | Hy]; eauto.
Qed.

Lemma regularize_all (l : list string) : flat_map _regularize l = l.
Proof. induction l as [|x l IH]; cbn; [reflexivity | now rewrite IH]. Qed.

Lemma sanitize_parts (value : string) :
  sanitize self value = filter nonempty (split_regexp_split self value).
Proof. unfold sanitize. apply regularize_all. Qed.

Lemma sanitize_nonempty (value t : string) :
  In t (sanitize self value) -> t <> "".
Proof.
  rewrite sanitize_parts. intros H. apply filter_In in H as [_ H].
  now destruct t.
Qed.

(** Every item that an iteration puts into [new_address] is the item
    itself, passed through, or a copy of a housenumber candidate with a
    value that is not empty. *)
Lemma emitted_origin (i o : PlaceName) :
  In o (emitted self itype i) ->
  (o = i /\ passes_through self i = true) \/
  (filter_kind self (kind i) = true /\ kind o = "housenumber" /\
   attrs o = attrs i /\ name o <> "").
Proof.
  unfold emitted, loop_body, passes_through.
  assert (Hns : In o (fst (name_or_split self i ([], []))) ->
                kind o = "housenumber" /\ attrs o = attrs i /\ name o <> "").
  { unfold name_or_split. destruct (filter_name self (name i)); cbn; [easy|].
    intros Ho. apply in_map_iff in Ho as (t & <- & Ht).
    apply sanitize_nonempty in Ht. now cbn. }
  destruct (filter_kind self (kind i)); cbn [negb andb].
  - intros Ho. right. split; [reflexivity|].
    destruct itype as [it|]; [|now apply Hns].
    destruct (RANGE_REGEX_fullmatch (name i)); [|now apply Hns].
    destruct (_expand_range it (name i)) as [[|h hnrs]|e]; cbn [Py.bind] in Ho.
    + now apply Hns.
    + destruct (Py.map_result Py.str (h :: hnrs)) as [values|e] eqn:Ev;
        cbn [Py.bind fst List.app] in Ho; [|destruct Ho].
      apply in_map_iff in Ho as (v & <- & Hv). cbn.
      repeat split. apply map_result_ok in Ev.
      destruct (Forall2_in_r _ _ _ _ Ev Hv) as (n & Hn).
      now apply (str_nonempty n).
    + destruct Ho.
  - destruct (negb (kind i =? "interpolation")%string); cbn; [|easy].
    intros [<- | []]. now left.
Qed.

(** Every item that an iteration appends to [obj.names] is the copy of a
    housenumber candidate whose value passes the name filter. *)
Lemma named_origin (i o : PlaceName) :
  In o (named self itype i) ->
  filter_kind self (kind i) = true /\ filter_name self (name i) = true /\
  o = {| name := name i; kind := "housenumber"; attrs := attrs i |}.
Proof.
  unfold named, loop_body.
  assert (Hns : In o (snd (name_or_split self i ([], []))) ->
                filter_name self (name i) = true /\
                o = {| name := name i; kind := "housenumber";
                       attrs := attrs i |}).
  { unfold name_or_split. destruct (filter_name self (name i)); cbn; [|easy].
    intros [<- | []]. now split. }
  destruct (filter_kind self (kind i)).
  - intros Ho. split; [reflexivity|].
    destruct itype as [it|]; [|now apply Hns].
    destruct (RANGE_REGEX_fullmatch (name i)); [|now apply Hns].
    destruct (_expand_range it (name i)) as [[|h hnrs]|e]; cbn [Py.bind] in Ho.
    + now apply Hns.
    + destruct (Py.map_result Py.str (h :: hnrs)); cbn [Py.bind snd] in Ho;
        destruct Ho.
    + destruct Ho.
  - destruct (negb (kind i =? "interpolation")%string); cbn; easy.
Qed.

Lemma filter_none {A : Type} (p : A -> bool) (l : list A) :
  Forall (fun x => p x = false) l -> filter p l = [].
Proof.
  induction 1 as [|x l Hx _ IH]; cbn; [reflexivity | now rewrite Hx].
Qed.

Lemma filter_emitted (i : PlaceName) :
  filter_kind self "housenumber" = true ->
  filter (passes_through self) (emitted self itype i)
  = if passes_through self i then [i] else [].
Proof.
  intros Hh. destruct (passes_through self i) eqn:Hp.
  - destruct (emitted_passes_through self itype i Hp) as [-> _].
    cbn. now rewrite Hp.
  - apply filter_none, Forall_forall. intros o Ho.
    apply emitted_origin in Ho as [[-> _] | (_ & Hk & _)]; [exact Hp|].
    unfold passes_through. now rewrite Hk, Hh.
Qed.

End OutputFacts.

(** X8: when the transform returns, every item of the new address is
    either an item of the old address that passed through untouched, or a
    copy of kind 'housenumber' of a housenumber candidate of the old
    address, with the candidate's other attributes and a value that is
    not empty: no item is invented and no empty housenumber is emitted. *)
Theorem X8_address_origin
  (self : HousenumberSanitizer) (obj obj' : ProcessInfo) :
  __call__ self obj = Ok obj' ->
  Forall (fun o =>
            (In o (address obj) /\ passes_through self o = true) \/
            (exists i, In i (address obj) /\
                       filter_kind self (kind i) = true /\
                       kind o = "housenumber" /\ attrs o = attrs i /\
                       name o <> ""))
         (address obj').
Proof.
  intros H. destruct (call_returns self obj obj' H) as (itype & _ & -> & _).
  apply Forall_forall. intros o Ho.
  apply in_flat_map in Ho as (i & Hi & Ho).
  apply emitted_origin in Ho as [[-> Hp] | (Hk & Ho)]; [left; auto|].
  right. exists i. auto.
Qed.

Lemma X8_address_origin_witness :
  __call__ default_sanitizer
    (record [item "street" "Main"; item "housenumber" ";3,"])
  = Ok (record [item "street" "Main"; item "housenumber" "3"]) /\
  Forall (fun o =>
            (In o [item "street" "Main"; item "housenumber" ";3,"] /\
             passes_through default_sanitizer o = true) \/
            (exists i, In i [item "street" "Main"; item "housenumber" ";3,"] /\
                       filter_kind default_sanitizer (kind i) = true /\
                       kind o = "housenumber" /\ attrs o = attrs i /\
                       name o <> ""))
         [item "street" "Main"; item "housenumber" "3"].
Proof.
  split; [vm_compute; reflexivity|].
  apply (X8_address_origin default_sanitizer
           (record [item "street" "Main"; item "housenumber" ";3,"])
           (record [item "street" "Main"; item "housenumber" "3"])).
  vm_compute. reflexivity.
Defined.

(** X9: when the transform returns, the names of the record are the old
    names followed by copies of kind 'housenumber' of housenumber
    candidates of the address whose value passes the name filter; the
    copy keeps the value and the other attributes.  Nothing else is ever
    written to the names. *)
Theorem X9_names_origin
  (self : HousenumberSanitizer) (obj obj' : ProcessInfo) :
  __call__ self obj = Ok obj' ->
  exists added,
    names obj' = names obj ++ added /\
    Forall (fun o =>
              exists i, In i (address obj) /\
                        filter_kind self (kind i) = true /\
                        filter_name self (name i) = true /\
                        o = {| name := name i; kind := "housenumber";
                               attrs := attrs i |})
           added.
Proof.
  intros H. destruct (call_returns self obj obj' H) as (itype & _ & _ & ->).
  eexists. split; [reflexivity|].
  apply Forall_forall. intros o Ho.
  apply in_flat_map in Ho as (i & Hi & Ho).
  apply named_origin in Ho as (Hk & Hn & ->). exists i. auto.
Qed.

Lemma X9_names_origin_witness :
  __call__ private_sanitizer
    {| address := [item "housenumber" "private"; item "housenumber" "4"];
       names := [item "name" "Villa"] |}
  = Ok {| address := [item "housenumber" "4"];
          names := [item "name" "Villa"; item "housenumber" "private"] |} /\
  exists added,
    [item "name" "Villa"; item "housenumber" "private"]
    = [item "name" "Villa"] ++ added /\
    Forall (fun o =>
              exists i,
                In i [item "housenumber" "private"; item "housenumber" "4"] /\
                filter_kind private_sanitizer (kind i) = true /\
                filter_name private_sanitizer (name i) = true /\
                o = {| name := name i; kind := "housenumber";
                       attrs := attrs i |})
           added.
Proof.
  split; [vm_compute; reflexivity|].
  apply (X9_names_origin private_sanitizer
           {| address := [item "housenumber" "private"; item "housenumber" "4"];
              names := [item "name" "Villa"] |}
           {| address := [item "housenumber" "4"];
              names := [item "name" "Villa"; item "housenumber" "private"] |}).
  vm_compute. reflexivity.
Defined.

(** X10: when the housenumber filter matches the kind 'housenumber' (as
    the default filter does) and the transform returns, the items that
    are neither housenumber candidates nor interpolation items are the
    same before and after, in number and in order: the new address
    restricted to such items equals the old address restricted to them. *)
Theorem X10_pass_through_unchanged
  (self : HousenumberSanitizer) (obj obj' : ProcessInfo) :
  filter_kind self "housenumber" = true ->
  __call__ self obj = Ok obj' ->
  filter (passes_through self) (address obj')
  = filter (passes_through self) (address obj).
Proof.
  intros Hh H. destruct (call_returns self obj obj' H) as (itype & _ & -> & _).
  induction (address obj) as [|i rest IH]; cbn; [reflexivity|].
  rewrite filter_app, IH, (filter_emitted self itype i Hh).
  now destruct (passes_through self i).
Qed.

Lemma X10_pass_through_unchanged_witness :
  filter_kind default_sanitizer "housenumber" = true /\
  __call__ default_sanitizer
    (record [item "street" "Main"; item "housenumber" "1-3";
             item "interpolation" "all"; item "city" "Bern"])
  = Ok (record [item "street" "Main"; item "housenumber" "1";
                item "housenumber" "2"; item "housenumber" "3";
                item "city" "Bern"]) /\
  filter (passes_through default_sanitizer)
    [item "street" "Main"; item "housenumber" "1"; item "housenumber" "2";
     item "housenumber" "3"; item "city" "Bern"]
  = filter (passes_through default_sanitizer)
      [item "street" "Main"; item "housenumber" "1-3";
       item "interpolation" "all"; item "city" "Bern"].
Proof.
  split; [reflexivity|]. split; [vm_compute; reflexivity|].
  apply (X10_pass_through_unchanged default_sanitizer
           (record [item "street" "Main"; item "housenumber" "1-3";
                    item "interpolation" "all"; item "city" "Bern"])
           (record [item "street" "Main"; item "housenumber" "1";
                    item "housenumber" "2"; item "housenumber" "3";
                    item "city" "Bern"]));
    [reflexivity | vm_compute; reflexivity].
Defined.

(** X11: when the transform returns, a housenumber candidate of the
    address that is not expanded and not turned into a name is replaced,
    at its place, by one copy per non-empty part that the delimiter
    expression cuts from its value, in the order of the parts, and adds
    nothing to the names; when all parts are empty (a value that is empty
    or made of delimiters only) the candidate leaves nothing behind in
    the record. *)
Theorem X11_split_into_parts
  (self : HousenumberSanitizer) (obj obj' : ProcessInfo)
  (itype : option itype_t) (pre post : list PlaceName) (i : PlaceName) :
  __call__ self obj = Ok obj' ->
  discover_itype self (address obj) = Ok itype ->
  address obj = pre ++ i :: post ->
  filter_kind self (kind i) = true ->
  not_expanded itype i ->
  filter_name self (name i) = false ->
  address obj'
  = flat_map (emitted self itype) pre
    ++ map (fun t => {| name := t; kind := "housenumber"; attrs := attrs i |})
           (filter nonempty (split_regexp_split self (name i)))
    ++ flat_map (emitted self itype) post /\
  names obj'
  = names obj ++ flat_map (named self itype) pre
    ++ flat_map (named self itype) post /\
  (Forall (fun t => t = "") (split_regexp_split self (name i)) ->
   address obj'
   = flat_map (emitted self itype) pre ++ flat_map (emitted self itype) post).
Proof.
  intros Hcall Hd Ea Hk He Hn.
  destruct (call_split self obj obj' pre post i Hcall Ea)
    as (itype' & Hd' & Haddr & Hnames & Hbody).
  rewrite Hd in Hd'. injection Hd' as <-.
  rewrite (loop_body_not_expanded self itype i ([], []) Hk He) in Hbody.
  unfold name_or_split in Hbody. rewrite Hn, sanitize_parts in Hbody.
  injection Hbody as Hem Hnm. cbn [List.app] in Hem.
  rewrite <- Hem in Haddr. rewrite <- Hnm in Hnames.
  split; [exact Haddr|]. split; [exact Hnames|].
  intros Hall. rewrite Haddr, filter_none; [reflexivity|].
  eapply Forall_impl; [|exact Hall]. now intros t ->.
Qed.

Lemma X11_split_into_parts_witness :
  __call__ default_sanitizer
    (record [item "street" "Main"; item "housenumber" ";,";
             item "housenumber" "3;5"])
  = Ok (record [item "street" "Main"; item "housenumber" "3";
                item "housenumber" "5"]) /\
  discover_itype default_sanitizer
    [item "street" "Main"; item "housenumber" ";,"; item "housenumber" "3;5"]
  = Ok None /\
  filter_kind default_sanitizer (kind (item "housenumber" ";,")) = true /\
  not_expanded None (item "housenumber" ";,") /\
  filter_name default_sanitizer (name (item "housenumber" ";,")) = false /\
  Forall (fun t => t = "")
    (split_regexp_split default_sanitizer (name (item "housenumber" ";,"))) /\
  [item "street" "Main"; item "housenumber" "3"; item "housenumber" "5"]
  = flat_map (emitted default_sanitizer None) [item "street" "Main"]
    ++ flat_map (emitted default_sanitizer None) [item "housenumber" "3;5"].
Proof.
  assert (Hall : Forall (fun t => t = "")
            (split_regexp_split default_sanitizer
               (name (item "housenumber" ";,"))))
    by (repeat constructor).
  split; [vm_compute; reflexivity|]. split; [reflexivity|].
  split; [reflexivity|]. split; [exact I|]. split; [reflexivity|].
  split; [exact Hall|].
  exact (proj2 (proj2 (X11_split_into_parts default_sanitizer
           (record [item "street" "Main"; item "housenumber" ";,";
                    item "housenumber" "3;5"])
           (record [item "street" "Main"; item "housenumber" "3";
                    item "housenumber" "5"])
           None [item "street" "Main"] [item "housenumber" "3;5"]
           (item "housenumber" ";,")
           ltac:(vm_compute; reflexivity) eq_refl eq_refl eq_refl I eq_refl))
         Hall).
Defined.

(** X12: a record that the transform has returned can be given to the
    transform again without any exception: the second application
    returns, finds no interpolation type, and only re-splits the
    housenumber candidates and passes the other items through. *)
Theorem X12_second_application_returns
  (self : HousenumberSanitizer) (obj obj1 : ProcessInfo) :
  __call__ self obj = Ok obj1 ->
  exists obj2,
    __call__ self obj1 = Ok obj2 /\
    discover_itype self (address obj1) = Ok None /\
    address obj2 = flat_map (emitted self None) (address obj1) /\
    names obj2 = names obj1 ++ flat_map (named self None) (address obj1).
Proof.
  intros H.
  assert (Hno : Forall (fun o => kind o <> "interpolation") (address obj1)).
  { destruct (call_returns self obj obj1 H) as (itype & _ & -> & _).
    apply Forall_flat_map, Forall_forall. intros i _.
    apply emitted_not_interpolation. }
  assert (Hd : discover_itype self (address obj1) = Ok None).
  { unfold discover_itype. rewrite (first_interpolation_none _ Hno).
    now destruct (expand_interpolations self). }
  destruct (__call__ self obj1) as [obj2|e] eqn:E.
  - exists obj2. split; [reflexivity|]. split; [exact Hd|].
    destruct (call_returns self obj1 obj2 E) as (itype & Hd' & Ha & Hn).
    rewrite Hd in Hd'. injection Hd' as <-. auto.
  - exfalso. apply call_raise_inversion in E as (_ & t & Ht & _).
    rewrite (first_interpolation_none _ Hno) in Ht. discriminate.
Qed.

Lemma X12_second_application_returns_witness :
  __call__ default_sanitizer
    (record [item "interpolation" "odd"; item "housenumber" "1-5";
             item "housenumber" "7-1"])
  = Ok (record [item "housenumber" "1"; item "housenumber" "3";
                item "housenumber" "5"; item "housenumber" "7-1"]) /\
  exists obj2,
    __call__ default_sanitizer
      (record [item "housenumber" "1"; item "housenumber" "3";
               item "housenumber" "5"; item "housenumber" "7-1"])
    = Ok obj2.
Proof.
  split; [vm_compute; reflexivity|].
  destruct (X12_second_application_returns default_sanitizer
              (record [item "interpolation" "odd"; item "housenumber" "1-5";
                       item "housenumber" "7-1"])
              (record [item "housenumber" "1"; item "housenumber" "3";
                       item "housenumber" "5"; item "housenumber" "7-1"]))
    as (obj2 & H2 & _); [vm_compute; reflexivity|].
  exists obj2. exact H2.
Defined.

(** X13: for a value that [RANGE_REGEX] matches in full, the unpacking
    and the two conversions of line 100 give two natural numbers unless
    one endpoint has more than 4300 digits, and [_expand_range] raises
    [ValueError] in exactly that case, whatever the interpolation type:
    but for the digit limit of [int], the guard of line 68 makes the
    parsing safe. *)
Theorem X13_range_parse_safe (hnr : string) :
  RANGE_REGEX_fullmatch hnr = true ->
  (long_endpoint hnr = false ->
   exists first last,
     parse_endpoints hnr = Ok (first, last) /\ 0 <= first /\ 0 <= last) /\
  (forall it,
     _expand_range it hnr = Raise ValueError <-> long_endpoint hnr = true).
Proof.
  intros Hm. split; [now apply parse_endpoints_fullmatch|].
  intros it. split.
  - intros He.
    apply (expand_range_raise it hnr ValueError Hm) in He
      as [[_ Hl] | (_ & f & l & _ & Hd)]; [exact Hl|].
    apply truediv_lt_10_raise in Hd as [[_ Hd] | (_ & Hd & _)];
      discriminate Hd.
  - intros Hl. unfold _expand_range.
    now rewrite (parse_endpoints_long hnr Hm Hl).
Qed.

Lemma X13_range_parse_safe_witness :
  RANGE_REGEX_fullmatch long_range = true /\
  long_endpoint long_range = true /\
  _expand_range (IInt 1) long_range = Raise ValueError.
Proof.
  split; [vm_compute; reflexivity|].
  split; [vm_compute; reflexivity|].
  apply (proj2 (X13_range_parse_safe long_range
                  ltac:(vm_compute; reflexivity)) (IInt 1)).
  vm_compute. reflexivity.
Defined.
